(** * Iframe bridge of the splat editor: a shallow embedding of
      [src/iframe-integration.ts] and the properties of its handlers.

    The file follows the source top-down: the values exchanged with the
    parent window, the collaborators reached through [events.invoke], an
    effect monad for the asynchronous handlers, then the functions
    [isInIframe], [createIframeControls], [getCameraPose],
    [captureThumbnail], [exportPly], [performExport] and the listeners
    registered by [initIframeIntegration].

    Modelling conventions.
    - One handler invocation is modelled as one sequential run: every
      awaited collaborator call settles, either with a value or with a
      thrown value.  Interleavings of two overlapping handlers and calls
      that never settle are outside the model.
    - Strings are [string]; the source only compares them with ASCII
      literals, so code units and bytes behave alike.
    - JavaScript numbers are only copied by this code, never computed
      with; they are carried as rationals.
    - [console.log] and [console.error] output is not recorded. *)

From Stdlib Require Import Bool List String Ascii PeanoNat NArith QArith Lia.
Import ListNotations.

Local Close Scope Q_scope.
Local Open Scope string_scope.
Local Open Scope list_scope.

(** ** Filename normalisation (exportPly, lines 133-137) *)

Module Filename.

(** [String.prototype.includes]: does [s] contain [pat] as a
    contiguous substring? *)
Fixpoint includes (pat s : string) : bool :=
  if String.prefix pat s then true
  else match s with
       | EmptyString => false
       | String _ rest => includes pat rest
       end.

(** One character of the pattern under the [i] flag: [c] equals [lo]
    or [up]. *)
Definition ci (lo up c : ascii) : bool :=
  Ascii.eqb c lo || Ascii.eqb c up.

(** Does the regular expression [\.ply$] (flag [i]) match with its
    first character at the head of [s]?  The anchor [$] has no [m]
    flag, so it is the end of the input. *)
Definition matches_dot_ply_end (s : string) : bool :=
  match s with
  | String d (String p (String l (String y EmptyString))) =>
      Ascii.eqb d "."%char && ci "p"%char "P"%char p
      && ci "l"%char "L"%char l && ci "y"%char "Y"%char y
  | _ => false
  end.

(** [s.replace(/\.ply$/i, '.compressed.ply')]: the leftmost match is
    replaced, a string without a match is returned as it is. *)
Fixpoint replace_ply_suffix (s : string) : string :=
  if matches_dot_ply_end s then ".compressed.ply"
  else match s with
       | EmptyString => EmptyString
       | String c rest => String c (replace_ply_suffix rest)
       end.

(** Lines 135-137. *)
Definition ensure_compressed (filename : string) : string :=
  if negb (includes ".compressed.ply" filename)
  then replace_ply_suffix filename
  else filename.

(** Line 134: [splats[0].filename || 'edited.ply'].  A missing
    property ([None]) and the empty string are both falsy. *)
Definition or_default (filename : option string) : string :=
  match filename with
  | Some (String c rest) => String c rest
  | Some EmptyString | None => "edited.ply"
  end.

Definition derive (filename : option string) : string :=
  ensure_compressed (or_default filename).

End Filename.

(** ** Values crossing the bridge *)

(** JavaScript numbers (camera coordinates, field of view, opacity). *)
Definition number : Type := Q.

(** Contents of a [Uint8Array] or [ArrayBuffer]. *)
Definition Bytes : Type := list Byte.byte.

(** A value that was thrown.  [ErrorObject] is an [Error] instance;
    [ThrownValue] is any other thrown value, one without a [message],
    kept as what [String(value)] renders. *)
Inductive Thrown : Type :=
| ErrorObject (name message : string)
| ThrownValue (rendering : string).

(** [new Error(message)]. *)
Definition new_Error (message : string) : Thrown := ErrorObject "Error" message.

(** [String(error)]; for an [Error] this is [Error.prototype.toString]. *)
Definition String_of (error : Thrown) : string :=
  match error with
  | ErrorObject name message =>
      if (name =? "")%string then message
      else if (message =? "")%string then name
      else name ++ ": " ++ message
  | ThrownValue rendering => rendering
  end.

(** [error?.message || String(error)] (lines 226, 250, 266). *)
Definition error_text (error : Thrown) : string :=
  match error with
  | ErrorObject _ (String c rest) => String c rest
  | _ => String_of error
  end.

(** A settled computation or promise: fulfilled with a value or
    rejected with a thrown value. *)
Inductive Outcome (A : Type) : Type :=
| Returned (a : A)
| Threw (error : Thrown).
Arguments Returned {A} a.
Arguments Threw {A} error.

Record Vec3 : Type := { x : number; y : number; z : number }.

(** The object handed back by [camera.getPose]; a missing [position] or
    [target] makes the property read of line 50 or 51 throw. *)
Record HostPose : Type :=
  { pose_position : option Vec3; pose_target : option Vec3 }.

(** The pose object built at lines 49-53. *)
Record CameraPose : Type :=
  { position : list number; target : list number; fov : number }.

Record Blob : Type := { blob_type : string; blob_bytes : Bytes }.

(** A scene item; only [filename] is read here, the rest is for the
    serializer. *)
Record Splat : Type :=
  { splat_filename : option string; splat_data : Bytes }.

Record FileDescriptor : Type :=
  { fd_filename : string; fd_contents : Bytes }.

Record SerializeSettings : Type :=
  { maxSHBands : N; minOpacity : number; removeInvalid : bool }.

(** [MemoryFileSystem.results]: file name to bytes written. *)
Definition MemoryFileSystem : Type := list (string * Bytes).

Fixpoint results_get (results : MemoryFileSystem) (name : string) : option Bytes :=
  match results with
  | [] => None
  | (k, v) :: rest => if (k =? name)%string then Some v else results_get rest name
  end.

(** What [exportPly] resolves to. *)
Record PlyExport : Type := { filename : string; data : Bytes }.

(** Messages posted to the parent window (spec section 6). *)
Inductive Message : Type :=
| SplatEditorReady
| SupersplatReady
| SplatEditorCancel
| SplatEditorSubmit (thumbnail : option Blob) (plyFile : Bytes)
                    (filename : string) (cameraPose : option CameraPose)
| SplatEditorError (error : string)
| SupersplatImportError (error : string).

(** [e.data] of an inbound message event; [None] fields are absent
    (or null) properties. *)
Record MessageData : Type :=
  { msg_type : option string; msg_files : option (list FileDescriptor) }.

(** ** Collaborators *)

(** Calls that leave this file: the event bus, the serializer and the
    canvas used to encode the thumbnail. *)
Inductive Call : Type :=
| CameraGetPose
| CameraFov
| RenderOffscreen (width height : N)
| SceneSplats
| Import (files : list FileDescriptor)
| SerializePlyCompressed (splats : list Splat) (settings : SerializeSettings)
| CanvasGetContext (kind : string)
| CanvasToBlob (pixels : Bytes) (type : string).

(** The host application behind [events.invoke], [serializePlyCompressed]
    and the canvas, as a deterministic machine with a hidden state [H]:
    each call yields its outcome and the next host state. *)
Class Collaborators (H : Type) : Type :=
  { host_camera_getPose : H -> Outcome (option HostPose) * H;
    host_camera_fov : H -> Outcome number * H;
    host_render_offscreen : N -> N -> H -> Outcome (option Bytes) * H;
    host_scene_splats : H -> Outcome (option (list Splat)) * H;
    host_import : list FileDescriptor -> H -> Outcome unit * H;
    host_serializePlyCompressed :
      list Splat -> SerializeSettings -> H -> Outcome MemoryFileSystem * H;
    (** is a 2d context available? *)
    host_getContext2d : H -> bool * H;
    (** the blob handed to the [toBlob] callback, [None] for null *)
    host_toBlob : Bytes -> string -> H -> option Blob * H }.

(** ** The page *)

Inductive Control : Type := Submit | Cancel.

Record Button : Type :=
  { button_id : string;
    textContent : string;
    className : string;
    disabled : bool }.

(** [document.createElement('button')]. *)
Definition fresh_button : Button :=
  {| button_id := ""; textContent := ""; className := ""; disabled := false |}.

(** [window.self] and [window.top]; reading [top] may throw. *)
Record Window : Type := { self : nat; top : Outcome nat }.

Inductive Listener : Type :=
| CancelClick
| SubmitClick
| WindowMessage.

Inductive DomEffect : Type :=
| SetId (c : Control) (v : string)
| SetTextContent (c : Control) (v : string)
| SetClassName (c : Control) (v : string)
| SetDisabled (c : Control) (v : bool)
| AppendToBody (c : Control)
| AddEventListener (l : Listener).

(** Everything a run does that is visible outside it, in order. *)
Inductive Event : Type :=
| Invoked (c : Call)
| Posted (m : Message) (targetOrigin : string)
| Dom (d : DomEffect).

Definition calls (trace : list Event) : list Call :=
  flat_map (fun ev => match ev with Invoked c => [c] | _ => [] end) trace.

Definition posts (trace : list Event) : list (Message * string) :=
  flat_map (fun ev => match ev with Posted m o => [(m, o)] | _ => [] end) trace.

Definition is_submit (m : Message) : bool :=
  match m with SplatEditorSubmit _ _ _ _ => true | _ => false end.

Definition is_import_error (m : Message) : bool :=
  match m with SupersplatImportError _ => true | _ => false end.

(** The pose API ([camera.getPose], [camera.fov]) and the render API
    ([render.offscreen]). *)
Definition is_pose_call (c : Call) : bool :=
  match c with CameraGetPose | CameraFov => true | _ => false end.

Definition is_render_call (c : Call) : bool :=
  match c with RenderOffscreen _ _ => true | _ => false end.

Definition is_serialize_call (c : Call) : bool :=
  match c with SerializePlyCompressed _ _ => true | _ => false end.

(** The step of [performExport] a call belongs to: 1 pose capture,
    2 thumbnail capture, 3 serialization. *)
Definition export_step (c : Call) : nat :=
  match c with
  | CameraGetPose | CameraFov => 1
  | RenderOffscreen _ _ | CanvasGetContext _ | CanvasToBlob _ _ => 2
  | SceneSplats | SerializePlyCompressed _ _ => 3
  | Import _ => 0
  end.

(** ** The effect monad of the handlers *)

Record World (H : Type) : Type :=
  { host : H;
    window : Window;
    submit : Button;
    cancel : Button;
    (** children appended to [document.body], oldest first *)
    body : list Control;
    listeners : list Listener }.
Arguments host {H} _.
Arguments window {H} _.
Arguments submit {H} _.
Arguments cancel {H} _.
Arguments body {H} _.
Arguments listeners {H} _.

(** A run from a world: how it settles, the world it leaves, and the
    events it caused, oldest first.  State and events survive a throw. *)
Definition M (H A : Type) : Type :=
  World H -> Outcome A * World H * list Event.

Definition ret {H A} (a : A) : M H A :=
  fun w => (Returned a, w, []).

Definition throw {H A} (error : Thrown) : M H A :=
  fun w => (Threw error, w, []).

Definition bind {H A B} (m : M H A) (k : A -> M H B) : M H B :=
  fun w =>
    match m w with
    | (Returned a, w1, t1) =>
        match k a w1 with
        | (r, w2, t2) => (r, w2, t1 ++ t2)
        end
    | (Threw error, w1, t1) => (Threw error, w1, t1)
    end.

(** [try { body } catch (error) { handler }]. *)
Definition try_catch {H A} (body : M H A) (handler : Thrown -> M H A) : M H A :=
  fun w =>
    match body w with
    | (Returned a, w1, t1) => (Returned a, w1, t1)
    | (Threw error, w1, t1) =>
        match handler error w1 with
        | (r, w2, t2) => (r, w2, t1 ++ t2)
        end
    end.

Declare Scope bridge_scope.
Delimit Scope bridge_scope with bridge.
Notation "x <- m ;; k" := (bind m (fun x => k))
  (at level 61, m at next level, right associativity) : bridge_scope.
Notation "m ;; k" := (bind m (fun _ => k))
  (at level 61, right associativity) : bridge_scope.
Local Open Scope bridge_scope.

(** [new Promise(executor)]: the executor runs at once; what it throws
    rejects the promise instead of propagating. *)
Definition new_Promise {H A} (executor : M H A) : M H (Outcome A) :=
  fun w => match executor w with (r, w1, t1) => (Returned r, w1, t1) end.

(** Returning (or awaiting) a settled promise settles the same way. *)
Definition settle_as {H A} (p : Outcome A) : M H A :=
  fun w => (p, w, []).

(** [for (const item of items) { body }]. *)
Fixpoint for_of {H A} (items : list A) (body : A -> M H unit) : M H unit :=
  match items with
  | [] => ret tt
  | item :: rest => body item ;; for_of rest body
  end.

Definition with_host {H} (h : H) (w : World H) : World H :=
  {| host := h; window := window w; submit := submit w; cancel := cancel w;
     body := body w; listeners := listeners w |}.

Definition with_button {H} (c : Control) (b : Button) (w : World H) : World H :=
  match c with
  | Submit => {| host := host w; window := window w; submit := b;
                 cancel := cancel w; body := body w; listeners := listeners w |}
  | Cancel => {| host := host w; window := window w; submit := submit w;
                 cancel := b; body := body w; listeners := listeners w |}
  end.

Definition button {H} (c : Control) (w : World H) : Button :=
  match c with Submit => submit w | Cancel => cancel w end.

(** A call to a collaborator. *)
Definition invoke {H A} (c : Call) (f : H -> Outcome A * H) : M H A :=
  fun w => match f (host w) with (r, h) => (r, with_host h w, [Invoked c]) end.

(** [window.parent.postMessage(message, targetOrigin)]. *)
Definition postMessage {H} (message : Message) (targetOrigin : string) : M H unit :=
  fun w => (Returned tt, w, [Posted message targetOrigin]).

Definition apply_dom (d : DomEffect) (b : Button) : Button :=
  match d with
  | SetId _ v => {| button_id := v; textContent := textContent b;
                    className := className b; disabled := disabled b |}
  | SetTextContent _ v => {| button_id := button_id b; textContent := v;
                             className := className b; disabled := disabled b |}
  | SetClassName _ v => {| button_id := button_id b; textContent := textContent b;
                           className := v; disabled := disabled b |}
  | SetDisabled _ v => {| button_id := button_id b; textContent := textContent b;
                          className := className b; disabled := v |}
  | AppendToBody _ | AddEventListener _ => b
  end.

(** A property write on one of the two buttons. *)
Definition set_property {H} (c : Control) (d : DomEffect) : M H unit :=
  fun w => (Returned tt, with_button c (apply_dom d (button c w)) w, [Dom d]).

Definition createElement_button {H} (c : Control) : M H unit :=
  fun w => (Returned tt, with_button c fresh_button w, []).

Definition appendChild {H} (c : Control) : M H unit :=
  fun w => (Returned tt,
            {| host := host w; window := window w; submit := submit w;
               cancel := cancel w; body := body w ++ [c];
               listeners := listeners w |},
            [Dom (AppendToBody c)]).

Definition addEventListener {H} (l : Listener) : M H unit :=
  fun w => (Returned tt,
            {| host := host w; window := window w; submit := submit w;
               cancel := cancel w; body := body w;
               listeners := listeners w ++ [l] |},
            [Dom (AddEventListener l)]).

(** ** The functions of the source *)

(** The [options] argument of [performExport]; [None] is a property
    left undefined, which the destructuring at line 172 defaults to true. *)
Record ExportOptions : Type :=
  { includeThumbnail : option bool; includeCameraPose : option bool }.

Definition or_true (flag : option bool) : bool :=
  match flag with Some b => b | None => true end.

Section Bridge.

Context {H : Type} `{Collaborators H}.

(** Lines 10-16. *)
Definition isInIframe : M H bool :=
  try_catch
    (fun w => match top (window w) with
              | Returned t => (Returned (negb (Nat.eqb (self (window w)) t)), w, [])
              | Threw error => (Threw error, w, [])
              end)
    (fun _ => ret true).

(** Lines 21-36.  The two handles are the [submit] and [cancel]
    buttons of the world. *)
Definition createIframeControls : M H unit :=
  createElement_button Submit ;;
  set_property Submit (SetId Submit "submit-splat-button") ;;
  set_property Submit (SetTextContent Submit "Submit") ;;
  set_property Submit (SetClassName Submit "iframe-control-button") ;;
  createElement_button Cancel ;;
  set_property Cancel (SetId Cancel "cancel-splat-button") ;;
  set_property Cancel (SetTextContent Cancel "Cancel") ;;
  set_property Cancel (SetClassName Cancel "iframe-control-button") ;;
  appendChild Cancel ;;
  appendChild Submit.

(** [[v.x, v.y, v.z]] for a property that may be missing. *)
Definition components (v : option Vec3) : M H (list number) :=
  match v with
  | Some v => ret [x v; y v; z v]
  | None => throw (ErrorObject "TypeError" "Cannot read properties of undefined")
  end.

(** Lines 41-58. *)
Definition getCameraPose : M H (option CameraPose) :=
  try_catch
    (pose <- invoke CameraGetPose host_camera_getPose ;;
     match pose with
     | None => ret None
     | Some pose =>
         position <- components (pose_position pose) ;;
         target <- components (pose_target pose) ;;
         fov <- invoke CameraFov host_camera_fov ;;
         ret (Some {| position := position; target := target; fov := fov |})
     end)
    (fun _ => ret None).

(** Capacity of the [ImageData] of a 512 x 512 canvas, in bytes. *)
Definition image_data_length : N := 512 * 512 * 4.

(** Lines 77-95, the executor of the promise.  [imageData.data.set]
    throws a [RangeError] when the source is longer than the target
    (the message text is the engine's; one rendering is fixed here). *)
Definition encode_png (pixels : Bytes) : M H (option Blob) :=
  ctx <- invoke (CanvasGetContext "2d")
           (fun h => match host_getContext2d h with (c, h1) => (Returned c, h1) end) ;;
  if negb ctx then ret None
  else if (image_data_length <? N.of_nat (List.length pixels))%N
       then throw (ErrorObject "RangeError" "offset is out of bounds")
       else invoke (CanvasToBlob pixels "image/png")
              (fun h => match host_toBlob pixels "image/png" h with
                        | (b, h1) => (Returned b, h1)
                        end).

(** Lines 63-100.  The promise is returned without [await], so its
    rejection is not caught by the [try]. *)
Definition captureThumbnail : M H (option Blob) :=
  promise <- try_catch
               (pixels <- invoke (RenderOffscreen 512 512)
                            (host_render_offscreen 512 512) ;;
                match pixels with
                | None => ret (Returned None)
                | Some pixels => new_Promise (encode_png pixels)
                end)
               (fun _ => ret (Returned None)) ;;
  settle_as promise.

Definition serializeSettings : SerializeSettings :=
  {| maxSHBands := 3; minOpacity := (1 # 255)%Q; removeInvalid := true |}.

(** Lines 105-147. *)
Definition exportPly : M H (option PlyExport) :=
  try_catch
    (splats <- invoke SceneSplats host_scene_splats ;;
     match splats with
     | None | Some [] => ret None
     | Some (first :: rest) =>
         memFs <- invoke (SerializePlyCompressed (first :: rest) serializeSettings)
                    (host_serializePlyCompressed (first :: rest) serializeSettings) ;;
         match results_get memFs "output.compressed.ply" with
         | None => ret None
         | Some data =>
             ret (Some {| filename := Filename.derive (splat_filename first);
                          data := data |})
         end
     end)
    (fun _ => ret None).

(** Lines 171-210. *)
Definition performExport (options : ExportOptions) : M H unit :=
  cameraPose <-
    (if or_true (includeCameraPose options) then
       pose <- getCameraPose ;;
       match pose with
       | None => throw (new_Error "Failed to capture camera pose")
       | Some pose => ret (Some pose)
       end
     else ret None) ;;
  thumbnail <-
    (if or_true (includeThumbnail options) then
       blob <- captureThumbnail ;;
       match blob with
       | None => throw (new_Error "Failed to capture thumbnail")
       | Some blob => ret (Some blob)
       end
     else ret None) ;;
  plyData <- exportPly ;;
  match plyData with
  | None => throw (new_Error "Failed to export PLY")
  | Some plyData =>
      postMessage
        (SplatEditorSubmit thumbnail (data plyData) (filename plyData) cameraPose)
        "*"
  end.

(** Lines 163-166. *)
Definition on_cancel_click : M H unit :=
  postMessage SplatEditorCancel "*".

(** Lines 213-233. *)
Definition on_submit_click : M H unit :=
  set_property Submit (SetDisabled Submit true) ;;
  set_property Cancel (SetDisabled Cancel true) ;;
  set_property Submit (SetTextContent Submit "Processing...") ;;
  try_catch
    (performExport {| includeThumbnail := Some true; includeCameraPose := Some true |})
    (fun error =>
       postMessage (SplatEditorError (error_text error)) "*" ;;
       set_property Submit (SetDisabled Submit false) ;;
       set_property Cancel (SetDisabled Cancel false) ;;
       set_property Submit (SetTextContent Submit "Submit")).

(** [e.data?.type === name]. *)
Definition type_is (e_data : option MessageData) (name : string) : bool :=
  match e_data with
  | Some d => match msg_type d with
              | Some t => (t =? name)%string
              | None => false
              end
  | None => false
  end.

(** Lines 242-253, one turn of the loop. *)
Definition import_one (fileData : FileDescriptor) : M H unit :=
  try_catch
    (invoke (Import [fileData]) (host_import [fileData]))
    (fun error => postMessage (SupersplatImportError (error_text error)) "*").

(** Lines 238-254. *)
Definition on_import (e_data : option MessageData) : M H unit :=
  match e_data with
  | Some d => match msg_files d with
              | Some (first :: rest) => for_of (first :: rest) import_one
              | Some [] | None => ret tt
              end
  | None => ret tt
  end.

(** Lines 256-268. *)
Definition on_auto_export : M H unit :=
  try_catch
    (performExport {| includeThumbnail := Some false; includeCameraPose := Some false |})
    (fun error => postMessage (SplatEditorError (error_text error)) "*").

(** Lines 236-270. *)
Definition on_message (e_data : option MessageData) : M H unit :=
  if type_is e_data "supersplat:import" then on_import e_data
  else if type_is e_data "supersplat:auto-export" then on_auto_export
  else ret tt.

(** Lines 152-276. *)
Definition initIframeIntegration : M H unit :=
  inIframe <- isInIframe ;;
  if negb inIframe then ret tt
  else
    createIframeControls ;;
    addEventListener CancelClick ;;
    addEventListener SubmitClick ;;
    addEventListener WindowMessage ;;
    postMessage SplatEditorReady "*" ;;
    postMessage SupersplatReady "*".

End Bridge.

(** ** Observations on worlds and traces *)

Definition outcome_of {H A} (run : Outcome A * World H * list Event) : Outcome A :=
  fst (fst run).

Definition world_of {H A} (run : Outcome A * World H * list Event) : World H :=
  snd (fst run).

Definition trace_of {H A} (run : Outcome A * World H * list Event) : list Event :=
  snd run.

(** The two option sets used by the callers (lines 221 and 261). *)
Definition full_export : ExportOptions :=
  {| includeThumbnail := Some true; includeCameraPose := Some true |}.

Definition bare_export : ExportOptions :=
  {| includeThumbnail := Some false; includeCameraPose := Some false |}.

(** What the submit handler appends to the trace once the export has
    settled with [r] (lines 222-232). *)
Definition submit_epilogue (r : Outcome unit) : list Event :=
  match r with
  | Returned _ => []
  | Threw error =>
      [Posted (SplatEditorError (error_text error)) "*";
       Dom (SetDisabled Submit false);
       Dom (SetDisabled Cancel false);
       Dom (SetTextContent Submit "Submit")]
  end.

(** The idle state of the two controls: both enabled, label "Submit". *)
Definition controls_idle {H} (w : World H) : bool :=
  negb (disabled (submit w)) && negb (disabled (cancel w))
  && (textContent (submit w) =? "Submit")%string.

(** The processing state: both disabled, label "Processing...". *)
Definition controls_processing {H} (w : World H) : bool :=
  disabled (submit w) && disabled (cancel w)
  && (textContent (submit w) =? "Processing...")%string.

Definition submit_messages (trace : list Event) : list Message :=
  filter is_submit (map fst (posts trace)).

Definition import_error_messages (trace : list Event) : list Message :=
  filter is_import_error (map fst (posts trace)).

Definition dom_effects (trace : list Event) : list DomEffect :=
  flat_map (fun ev => match ev with Dom d => [d] | _ => [] end) trace.

(** [filename] absent: null, undefined or the empty string. *)
Definition filename_absent (filename : option string) : Prop :=
  filename = None \/ filename = Some "".

(** The scene holds no item in host state [h]: [scene.splats] hands
    back nothing or an empty list. *)
Definition scene_empty {H} `{Collaborators H} (h : H) : Prop :=
  fst (host_scene_splats h) = Returned None
  \/ fst (host_scene_splats h) = Returned (Some []).

(** The outcomes of importing [files] one after the other from host
    state [h], in order. *)
Fixpoint import_outcomes {H} `{Collaborators H}
    (files : list FileDescriptor) (h : H) : list (Outcome unit) :=
  match files with
  | [] => []
  | f :: rest =>
      match host_import [f] h with
      | (r, h1) => r :: import_outcomes rest h1
      end
  end.

(** The host state after importing [files] one after the other. *)
Fixpoint host_after_imports {H} `{Collaborators H}
    (files : list FileDescriptor) (h : H) : H :=
  match files with
  | [] => h
  | f :: rest => host_after_imports rest (snd (host_import [f] h))
  end.

Definition import_failure_posts (outcomes : list (Outcome unit)) : list (Message * string) :=
  flat_map (fun r => match r with
                     | Threw error => [(SupersplatImportError (error_text error), "*")]
                     | Returned _ => []
                     end) outcomes.

(** The world once the submit handler has run lines 216-218. *)
Definition processing_world {H} (w : World H) : World H :=
  {| host := host w;
     window := window w;
     submit := {| button_id := button_id (submit w);
                  textContent := "Processing...";
                  className := className (submit w);
                  disabled := true |};
     cancel := {| button_id := button_id (cancel w);
                  textContent := textContent (cancel w);
                  className := className (cancel w);
                  disabled := true |};
     body := body w;
     listeners := listeners w |}.

(** The world once lines 229-231 have run. *)
Definition restored_world {H} (w : World H) : World H :=
  {| host := host w;
     window := window w;
     submit := {| button_id := button_id (submit w);
                  textContent := "Submit";
                  className := className (submit w);
                  disabled := false |};
     cancel := {| button_id := button_id (cancel w);
                  textContent := textContent (cancel w);
                  className := className (cancel w);
                  disabled := false |};
     body := body w;
     listeners := listeners w |}.

Definition submit_prologue : list Event :=
  [Dom (SetDisabled Submit true);
   Dom (SetDisabled Cancel true);
   Dom (SetTextContent Submit "Processing...")].

(** The submit handler in terms of the run of the export it wraps. *)
Definition submit_click_result {H}
    (export : Outcome unit * World H * list Event)
    : Outcome unit * World H * list Event :=
  match export with
  | (Returned _, w2, t) => (Returned tt, w2, submit_prologue ++ t)
  | (Threw error, w2, t) =>
      (Returned tt, restored_world w2,
       submit_prologue ++ t ++ submit_epilogue (Threw error))
  end.

(** ** A scripted host for concrete runs *)

Module Scripted.

(** Fixed answers for every collaborator except the importer. *)
Record Script : Type :=
  { pose : Outcome (option HostPose);
    field_of_view : Outcome number;
    pixels : Outcome (option Bytes);
    context2d : bool;
    png : option Blob;
    splats : Outcome (option (list Splat));
    written : Outcome MemoryFileSystem }.

(** The host state: the outcomes of the import calls still to come,
    one entry per call; once used up, imports succeed. *)
Definition Pending : Type := list (Outcome unit).

Definition next_import (q : Pending) : Outcome unit * Pending :=
  match q with
  | [] => (Returned tt, [])
  | r :: rest => (r, rest)
  end.

Definition scripted (s : Script) : Collaborators Pending :=
  {| host_camera_getPose := fun q => (pose s, q);
     host_camera_fov := fun q => (field_of_view s, q);
     host_render_offscreen := fun _ _ q => (pixels s, q);
     host_scene_splats := fun q => (splats s, q);
     host_import := fun _ q => next_import q;
     host_serializePlyCompressed := fun _ _ q => (written s, q);
     host_getContext2d := fun q => (context2d s, q);
     host_toBlob := fun _ _ q => (png s, q) |}.

Definition origin : Vec3 := {| x := 0%Q; y := 0%Q; z := 0%Q |}.

Definition a_blob : Blob :=
  {| blob_type := "image/png"; blob_bytes := [Byte.x89; Byte.x50] |}.

Definition a_splat (name : option string) : Splat :=
  {| splat_filename := name; splat_data := [Byte.x01] |}.

Definition ply_bytes : Bytes := [Byte.x70; Byte.x6c; Byte.x79].

(** A host on which every step of an export succeeds; the scene holds
    [items]. *)
Definition healthy (items : option (list Splat)) : Script :=
  {| pose := Returned (Some {| pose_position := Some origin;
                               pose_target := Some origin |});
     field_of_view := Returned (60 # 1)%Q;
     pixels := Returned (Some [Byte.xff; Byte.x00; Byte.x00; Byte.xff]);
     context2d := true;
     png := Some a_blob;
     splats := Returned items;
     written := Returned [("output.compressed.ply", ply_bytes)] |}.

(** The same host with the camera reporting [p]. *)
Definition with_pose (p : Outcome (option HostPose)) (s : Script) : Script :=
  {| pose := p; field_of_view := field_of_view s;
     pixels := pixels s; context2d := context2d s; png := png s;
     splats := splats s; written := written s |}.

Definition idle_button (name label : string) : Button :=
  {| button_id := name; textContent := label;
     className := "iframe-control-button"; disabled := false |}.

(** The page as [initIframeIntegration] leaves it inside an iframe,
    with [q] the import outcomes to come. *)
Definition page (q : Pending) : World Pending :=
  {| host := q;
     window := {| self := 1; top := Returned 0 |};
     submit := idle_button "submit-splat-button" "Submit";
     cancel := idle_button "cancel-splat-button" "Cancel";
     body := [Cancel; Submit];
     listeners := [CancelClick; SubmitClick; WindowMessage] |}.

(** A page whose [window.top] cannot be read. *)
Definition cross_origin_page : World Pending :=
  {| host := [];
     window := {| self := 1; top := Threw (ErrorObject "SecurityError" "Blocked a frame") |};
     submit := fresh_button;
     cancel := fresh_button;
     body := [];
     listeners := [] |}.

Definition file (name : string) : FileDescriptor :=
  {| fd_filename := name; fd_contents := [] |}.

Definition import_request (files : option (list FileDescriptor)) : MessageData :=
  {| msg_type := Some "supersplat:import"; msg_files := files |}.

Definition auto_export_request : MessageData :=
  {| msg_type := Some "supersplat:auto-export"; msg_files := None |}.

Definition three_files : list FileDescriptor :=
  [file "a.ply"; file "b.ply"; file "c.ply"].

(** The second import to come fails, the first and third succeed. *)
Definition second_fails : Pending :=
  [Returned tt; Threw (new_Error "unsupported file"); Returned tt].

Definition one_model : Script := healthy (Some [a_splat (Some "model.ply")]).

Definition unnamed_model : Script := healthy (Some [a_splat None]).

Definition empty_scene : Script := healthy (Some []).

End Scripted.

(** ** Byte buffers *)

Module TypedArray.

(** [new ArrayBuffer(byteLength)]: that many zero bytes. *)
Definition new_ArrayBuffer (byteLength : nat) : Bytes :=
  repeat Byte.x00 byteLength.

(** [view.set(source, offset)] on a [Uint8Array] over a buffer holding
    [view]: the bytes of [source] overwrite the buffer from [offset]
    on; a source that does not fit throws a [RangeError] and writes
    nothing. *)
Definition set (view source : Bytes) (offset : nat) : Outcome Bytes :=
  if Nat.ltb (List.length view) (offset + List.length source)
  then Threw (ErrorObject "RangeError" "offset is out of bounds")
  else Returned (firstn offset view ++ source
                 ++ skipn (offset + List.length source) view).

(** Lines 130-131 of [exportPly]: a buffer of the length of [data],
    filled by one [set] at offset 0. *)
Definition copy_to_ArrayBuffer (data : Bytes) : Outcome Bytes :=
  set (new_ArrayBuffer (List.length data)) data 0.

End TypedArray.

(** ** The earlier revision of [exportPly]: joining the writer's buffers *)

Module Legacy.

(** [buffers.reduce((sum, buf) => sum + buf.byteLength, 0)]. *)
Definition totalSize (buffers : list Bytes) : nat :=
  fold_left (fun sum buf => sum + List.length buf) buffers 0.

(** The loop [for (const buf of buffers) { uint8View.set(buf, offset);
    offset += buf.byteLength; }] over the buffer contents [view]. *)
Fixpoint write_buffers (buffers : list Bytes) (view : Bytes) (offset : nat)
    : Outcome Bytes :=
  match buffers with
  | [] => Returned view
  | buf :: rest =>
      match TypedArray.set view buf offset with
      | Returned view1 => write_buffers rest view1 (offset + List.length buf)
      | Threw error => Threw error
      end
  end.

(** The [ArrayBuffer] built from the buffers [bufferWriter.close()]
    hands back. *)
Definition concatenate (buffers : list Bytes) : Outcome Bytes :=
  write_buffers buffers (TypedArray.new_ArrayBuffer (totalSize buffers)) 0.

End Legacy.

(** ** Further observations *)

Definition is_error (m : Message) : bool :=
  match m with SplatEditorError _ => true | _ => false end.

(** The thrown values [performExport] can settle with. *)
Definition export_errors : list Thrown :=
  [new_Error "Failed to capture camera pose";
   new_Error "Failed to capture thumbnail";
   new_Error "Failed to export PLY";
   ErrorObject "RangeError" "offset is out of bounds"].

(** The parameters the export pipeline passes to its collaborators are
    constants of the source; it never imports. *)
Definition fixed_parameters (c : Call) : Prop :=
  match c with
  | RenderOffscreen width height => width = 512%N /\ height = 512%N
  | SerializePlyCompressed _ settings => settings = serializeSettings
  | CanvasGetContext kind => kind = "2d"
  | CanvasToBlob _ type => type = "image/png"
  | Import _ => False
  | CameraGetPose | CameraFov | SceneSplats => True
  end.

(** Every call of every run of [m] satisfies [P]. *)
Definition calls_satisfy {H A} (P : Call -> Prop) (m : M H A) : Prop :=
  forall w, Forall P (calls (trace_of (m w))).

(** [w1] differs from [w] in the host state at most. *)
Definition same_page {H} (w w1 : World H) : Prop :=
  window w1 = window w /\ submit w1 = submit w /\ cancel w1 = cancel w
  /\ body w1 = body w /\ listeners w1 = listeners w.

(** No run of [m] touches the page. *)
Definition keeps_page {H A} (m : M H A) : Prop :=
  forall w, same_page w (world_of (m w)) /\ dom_effects (trace_of (m w)) = [].


(** A blank page that is its own top window. *)
Definition top_level_page : World Scripted.Pending :=
  {| host := [];
     window := {| self := 7; top := Returned 7 |};
     submit := fresh_button;
     cancel := fresh_button;
     body := [];
     listeners := [] |}.

(** ** Facts about the filename normalisation *)

Module FilenameFacts.
Import Filename.

Lemma includes_cons pat c s :
  includes pat s = true -> includes pat (String c s) = true.
Proof.
  intros Hs. cbn [includes].
  destruct (String.prefix pat (String c s)); [reflexivity | exact Hs].
Qed.

(** The replacement either leaves the string alone or produces a
    string that contains the compressed extension. *)
Lemma replace_ply_suffix_cases s :
  replace_ply_suffix s = s
  \/ includes ".compressed.ply" (replace_ply_suffix s) = true.
Proof.
  induction s as [|c rest IH].
  - left. reflexivity.
  - cbn [replace_ply_suffix].
    destruct (matches_dot_ply_end (String c rest)).
    + right. reflexivity.
    + destruct IH as [IH | IH].
      * left. now rewrite IH.
      * right. now apply includes_cons.
Qed.

Lemma ensure_compressed_fixed s :
  includes ".compressed.ply" s = true -> ensure_compressed s = s.
Proof. intros Hs. unfold ensure_compressed. now rewrite Hs. Qed.

Lemma ensure_compressed_idem s :
  ensure_compressed (ensure_compressed s) = ensure_compressed s.
Proof.
  destruct (includes ".compressed.ply" s) eqn:Hinc.
  - now rewrite !(ensure_compressed_fixed s Hinc).
  - assert (Hstep : ensure_compressed s = replace_ply_suffix s)
      by (unfold ensure_compressed; now rewrite Hinc).
    rewrite Hstep.
    destruct (replace_ply_suffix_cases s) as [Hsame | Hnew].
    + rewrite Hsame, Hstep. exact Hsame.
    + now apply ensure_compressed_fixed.
Qed.

Lemma replace_ply_suffix_nonempty c s :
  replace_ply_suffix (String c s) <> "".
Proof.
  cbn [replace_ply_suffix].
  destruct (matches_dot_ply_end (String c s)); discriminate.
Qed.

Lemma derive_nonempty filename : derive filename <> "".
Proof.
  unfold derive, ensure_compressed.
  assert (Hne : exists c s, or_default filename = String c s).
  { destruct filename as [[|c s]|]; cbn; eauto. }
  destruct Hne as (c & s & ->).
  destruct (negb (includes ".compressed.ply" (String c s)));
    [apply replace_ply_suffix_nonempty | discriminate].
Qed.

(** C5.  Exported-filename derivation maps "model.ply" to
    "model.compressed.ply", leaves "model.compressed.ply" unchanged,
    and is idempotent: on every string for the extension step, and on
    every stored filename (absent ones included) for the whole
    derivation with its default. *)
Theorem ensure_compressed_examples_and_idempotent :
  ensure_compressed "model.ply" = "model.compressed.ply"
  /\ ensure_compressed "model.compressed.ply" = "model.compressed.ply"
  /\ derive (Some "model.ply") = "model.compressed.ply"
  /\ derive (Some "model.compressed.ply") = "model.compressed.ply"
  /\ (forall s, ensure_compressed (ensure_compressed s) = ensure_compressed s)
  /\ (forall filename, derive (Some (derive filename)) = derive filename).
Proof.
  repeat (split; [reflexivity |]).
  split; [exact ensure_compressed_idem |].
  intros filename. unfold derive at 1.
  destruct (derive filename) as [|c s] eqn:E.
  - now destruct (derive_nonempty filename).
  - cbn [or_default]. rewrite <- E. unfold derive. apply ensure_compressed_idem.
Qed.

End FilenameFacts.

(** ** Facts about the effect monad and the three capture steps *)

(** Case analysis on the innermost scrutinee of the goal, which in an
    unfolded run is the next collaborator answer. *)
Ltac split_run :=
  match goal with
  | |- context [match ?x with _ => _ end] =>
      lazymatch x with
      | context [match _ with _ => _ end] => fail
      | _ => destruct x eqn:?
      end
  end.

Ltac run_all := repeat (cbn; try split_run).

Section StepFacts.

Context {H : Type} `{Collaborators H}.

Lemma with_host_with_host (h1 h2 : H) (w : World H) :
  with_host h2 (with_host h1 w) = with_host h2 w.
Proof. reflexivity. Qed.

Lemma with_host_same (w : World H) : with_host (host w) w = w.
Proof. destruct w; reflexivity. Qed.

Lemma calls_invoked cs : calls (map Invoked cs) = cs.
Proof. induction cs as [|c cs IH]; cbn; [reflexivity | now f_equal]. Qed.

Lemma posts_invoked cs : posts (map Invoked cs) = [].
Proof. induction cs as [|c cs IH]; cbn; [reflexivity | exact IH]. Qed.

Lemma dom_effects_invoked cs : dom_effects (map Invoked cs) = [].
Proof. induction cs as [|c cs IH]; cbn; [reflexivity | exact IH]. Qed.

Lemma calls_cons_invoked c t : calls (Invoked c :: t) = c :: calls t.
Proof. reflexivity. Qed.

Lemma posts_cons_invoked c t : posts (Invoked c :: t) = posts t.
Proof. reflexivity. Qed.

Lemma calls_app t1 t2 : calls (t1 ++ t2) = calls t1 ++ calls t2.
Proof. unfold calls. now rewrite flat_map_app. Qed.

Lemma posts_app t1 t2 : posts (t1 ++ t2) = posts t1 ++ posts t2.
Proof. unfold posts. now rewrite flat_map_app. Qed.

Lemma dom_effects_app t1 t2 :
  dom_effects (t1 ++ t2) = dom_effects t1 ++ dom_effects t2.
Proof. unfold dom_effects. now rewrite flat_map_app. Qed.

(** [getCameraPose] never throws, and only queries the camera. *)
Lemma getCameraPose_settles (w : World H) :
  exists pose h cs,
    getCameraPose w = (Returned pose, with_host h w, map Invoked cs)
    /\ Forall (fun c => export_step c = 1) cs.
Proof.
  unfold getCameraPose, try_catch, bind, invoke, components, ret, throw.
  run_all.
  all: eexists; eexists; eexists; split;
    [ first [ instantiate (1 := [CameraGetPose; CameraFov]); reflexivity
            | instantiate (1 := [CameraGetPose]); reflexivity ]
    | repeat constructor ].
Qed.

(** [captureThumbnail] touches only the renderer and the canvas. *)
Lemma captureThumbnail_settles (w : World H) :
  exists r h cs,
    captureThumbnail w = (r, with_host h w, map Invoked cs)
    /\ Forall (fun c => export_step c = 2) cs.
Proof.
  unfold captureThumbnail, try_catch, bind, new_Promise, settle_as,
    encode_png, bind, invoke, ret, throw.
  run_all.
  all: eexists; eexists; eexists; split;
    [ first [ instantiate (1 := [RenderOffscreen 512 512]); reflexivity
            | instantiate (1 := [RenderOffscreen 512 512; CanvasGetContext "2d"]);
              reflexivity
            | instantiate (1 := [RenderOffscreen 512 512; CanvasGetContext "2d";
                                 CanvasToBlob _ "image/png"]);
              reflexivity ]
    | repeat constructor ].
Qed.

(** [exportPly] never throws, and only reads the scene and runs the
    serializer. *)
Lemma exportPly_settles (w : World H) :
  exists ply h cs,
    exportPly w = (Returned ply, with_host h w, map Invoked cs)
    /\ Forall (fun c => export_step c = 3) cs.
Proof.
  unfold exportPly, try_catch, bind, invoke, ret.
  run_all.
  all: eexists; eexists; eexists; split;
    [ first [ instantiate (1 := [SceneSplats]); reflexivity
            | instantiate (1 := [SceneSplats; SerializePlyCompressed _ _]);
              reflexivity ]
    | repeat constructor ].
Qed.

(** What a successful [exportPly] read from the host. *)
Lemma exportPly_success (w w1 : World H) ply t :
  exportPly w = (Returned (Some ply), w1, t) ->
  exists first rest h1 memFs h2,
    host_scene_splats (host w) = (Returned (Some (first :: rest)), h1)
    /\ host_serializePlyCompressed (first :: rest) serializeSettings h1
       = (Returned memFs, h2)
    /\ results_get memFs "output.compressed.ply" = Some (data ply)
    /\ filename ply = Filename.derive (splat_filename first)
    /\ w1 = with_host h2 w
    /\ t = [Invoked SceneSplats;
            Invoked (SerializePlyCompressed (first :: rest) serializeSettings)].
Proof.
  unfold exportPly, try_catch, bind, invoke, ret.
  run_all; intros E; inversion E; subst; clear E.
  repeat eexists; eauto.
Qed.

(** With an empty scene [exportPly] resolves to null after the one
    query. *)
Lemma exportPly_empty_scene (w : World H) :
  scene_empty (host w) ->
  exportPly w = (Returned None, with_host (snd (host_scene_splats (host w))) w,
                 [Invoked SceneSplats]).
Proof.
  unfold scene_empty, exportPly, try_catch, bind, invoke, ret.
  destruct (host_scene_splats (host w)) as [r h1]; cbn.
  intros [E | E]; subst r; reflexivity.
Qed.

(** The anatomy of every run of [performExport]: pose calls, then
    thumbnail calls, then serialization calls, then at most the one
    submit message, posted exactly when the run returns. *)
Lemma performExport_shape (options : ExportOptions) (w : World H) :
  exists r h c1 c2 c3 ps,
    performExport options w
    = (r, with_host h w, map Invoked c1 ++ map Invoked c2 ++ map Invoked c3 ++ ps)
    /\ Forall (fun c => export_step c = 1) c1
    /\ Forall (fun c => export_step c = 2) c2
    /\ Forall (fun c => export_step c = 3) c3
    /\ (or_true (includeCameraPose options) = false -> c1 = [])
    /\ (or_true (includeThumbnail options) = false -> c2 = [])
    /\ match r with
       | Returned _ =>
           exists thumbnail cameraPose h0 ply,
             exportPly (with_host h0 w)
             = (Returned (Some ply), with_host h w, map Invoked c3)
             /\ ps = [Posted (SplatEditorSubmit thumbnail (data ply)
                                (filename ply) cameraPose) "*"]
             /\ (or_true (includeThumbnail options) = false -> thumbnail = None)
             /\ (or_true (includeCameraPose options) = false -> cameraPose = None)
       | Threw _ => ps = []
       end.
Proof.
  unfold performExport.
  assert (Hpose : exists r h c1,
    (if or_true (includeCameraPose options)
     then pose <- getCameraPose ;;
          match pose with
          | None => throw (new_Error "Failed to capture camera pose")
          | Some pose => ret (Some pose)
          end
     else ret None) w = (r, with_host h w, map Invoked c1)
    /\ Forall (fun c => export_step c = 1) c1
    /\ (or_true (includeCameraPose options) = false ->
        c1 = [] /\ r = Returned None)).
  { destruct (or_true (includeCameraPose options)).
    - destruct (getCameraPose_settles w) as (pose & h & cs & E & F).
      unfold bind. rewrite E.
      destruct pose; cbn; rewrite app_nil_r;
        eexists; exists h, cs; (split; [reflexivity | split; [exact F | discriminate]]).
    - exists (Returned None), (host w), []. rewrite with_host_same.
      repeat split; constructor. }
  destruct Hpose as (r1 & h1 & c1 & E1 & F1 & N1).
  unfold bind at 1. rewrite E1.
  destruct r1 as [cameraPose | e1].
  2:{ exists (Threw e1), h1, c1, [], [], []. cbn. rewrite app_nil_r.
      repeat split; auto; intros Hoff;
        destruct (N1 Hoff) as [? ?]; congruence. }
  assert (Hthumb : exists r h c2,
    (if or_true (includeThumbnail options)
     then blob <- captureThumbnail ;;
          match blob with
          | None => throw (new_Error "Failed to capture thumbnail")
          | Some blob => ret (Some blob)
          end
     else ret None) (with_host h1 w) = (r, with_host h w, map Invoked c2)
    /\ Forall (fun c => export_step c = 2) c2
    /\ (or_true (includeThumbnail options) = false ->
        c2 = [] /\ r = Returned None)).
  { destruct (or_true (includeThumbnail options)).
    - destruct (captureThumbnail_settles (with_host h1 w)) as (blob & h & cs & E & F).
      unfold bind. rewrite E.
      destruct blob as [[blob|]|e]; cbn; try rewrite app_nil_r;
        eexists; exists h, cs; (split; [reflexivity | split; [exact F | discriminate]]).
    - exists (Returned None), h1, [].
      repeat split; constructor. }
  destruct Hthumb as (r2 & h2 & c2 & E2 & F2 & N2).
  unfold bind at 1. rewrite E2.
  destruct r2 as [thumbnail | e2].
  2:{ exists (Threw e2), h2, c1, c2, [], []. cbn. rewrite app_nil_r.
      repeat split; auto; intros Hoff;
        first [ destruct (N1 Hoff) as [? ?]; congruence
              | destruct (N2 Hoff) as [? ?]; congruence ]. }
  destruct (exportPly_settles (with_host h2 w)) as (ply & h3 & c3 & E3 & F3).
  unfold bind. rewrite E3. rewrite with_host_with_host in *.
  destruct ply as [ply|]; cbn.
  - exists (Returned tt), h3, c1, c2, c3,
      [Posted (SplatEditorSubmit thumbnail (data ply) (filename ply) cameraPose) "*"].
    repeat split; auto;
      try (intros Hoff;
           first [ destruct (N1 Hoff) as [? ?]; congruence
                 | destruct (N2 Hoff) as [? ?]; congruence ]).
    exists thumbnail, cameraPose, h2, ply.
    repeat split; auto; intros Hoff;
      first [ destruct (N1 Hoff) as [? ?]; congruence
            | destruct (N2 Hoff) as [? ?]; congruence ].
  - exists (Threw (new_Error "Failed to export PLY")), h3, c1, c2, c3, [].
    rewrite !app_nil_r.
    repeat split; auto; intros Hoff;
      first [ destruct (N1 Hoff) as [? ?]; congruence
            | destruct (N2 Hoff) as [? ?]; congruence ].
Qed.

End StepFacts.

(** ** The embedding detector *)

Section DetectorClaims.

Context {H : Type} `{Collaborators H}.

(** C6.  The embedding detector returns true whenever [window.self]
    differs from [window.top]; when reading [window.top] throws it
    returns true instead of propagating the exception; and it has no
    side effect: the world is unchanged and no event is caused. *)
Theorem isInIframe_contract (w : World H) :
  (forall t, top (window w) = Returned t -> t <> self (window w) ->
             isInIframe w = (Returned true, w, []))
  /\ (forall error, top (window w) = Threw error ->
                    isInIframe w = (Returned true, w, []))
  /\ world_of (isInIframe w) = w
  /\ trace_of (isInIframe w) = [].
Proof.
  unfold isInIframe, try_catch, ret, world_of, trace_of.
  repeat split.
  - intros t Htop Hneq. rewrite Htop.
    destruct (Nat.eqb_spec (self (window w)) t) as [E | E]; [congruence | reflexivity].
  - intros error Htop. now rewrite Htop.
  - destruct (top (window w)); reflexivity.
  - destruct (top (window w)); reflexivity.
Qed.

End DetectorClaims.

(** ** The import branch of the message listener *)

Section ImportClaims.

Context {H : Type} `{Collaborators H}.

(** One turn of the import loop never throws: it makes the one call
    and posts one error message exactly when the call threw. *)
Lemma import_one_run (f : FileDescriptor) (w : World H) :
  import_one f w
  = (Returned tt, with_host (snd (host_import [f] (host w))) w,
     Invoked (Import [f])
     :: map (fun p => Posted (fst p) (snd p))
            (import_failure_posts [fst (host_import [f] (host w))])).
Proof.
  unfold import_one, try_catch, invoke, postMessage.
  destruct (host_import [f] (host w)) as [[[]|error] h1]; reflexivity.
Qed.

Lemma posts_posted ps :
  posts (map (fun p => Posted (fst p) (snd p)) ps) = ps.
Proof.
  induction ps as [|[m o] ps IH]; cbn; [reflexivity | now f_equal].
Qed.

Lemma calls_posted ps :
  calls (map (fun p => Posted (fst p) (snd p)) ps) = [].
Proof. induction ps as [|[m o] ps IH]; cbn; [reflexivity | exact IH]. Qed.

(** The whole loop: every file is handed to the import pipeline, in
    order, whatever the earlier files did. *)
Lemma import_loop_run (files : list FileDescriptor) (w : World H) :
  outcome_of (for_of files import_one w) = Returned tt
  /\ world_of (for_of files import_one w)
     = with_host (host_after_imports files (host w)) w
  /\ calls (trace_of (for_of files import_one w))
     = map (fun f => Import [f]) files
  /\ posts (trace_of (for_of files import_one w))
     = import_failure_posts (import_outcomes files (host w)).
Proof.
  revert w. induction files as [|f rest IH]; intros w.
  - cbn. now rewrite with_host_same.
  - cbn [for_of]. unfold bind. rewrite import_one_run.
    specialize (IH (with_host (snd (host_import [f] (host w))) w)).
    destruct (for_of rest import_one _) as [[r w2] t2] eqn:Erest.
    unfold outcome_of, world_of, trace_of in *. cbn [fst snd] in *.
    destruct IH as (Hr & Hw & Hc & Hp).
    cbn [host_after_imports import_outcomes].
    destruct (host_import [f] (host w)) as [r1 h1]. cbn [fst snd] in *.
    repeat split.
    + exact Hr.
    + exact Hw.
    + rewrite calls_app, Hc, calls_cons_invoked, calls_posted. reflexivity.
    + rewrite posts_app, Hp, posts_cons_invoked, posts_posted.
      unfold import_failure_posts. cbn [flat_map]. now rewrite app_nil_r.
Qed.

Lemma on_message_import (d : MessageData) (files : list FileDescriptor) (w : World H) :
  msg_type d = Some "supersplat:import" ->
  msg_files d = Some files ->
  on_message (Some d) w = for_of files import_one w.
Proof.
  intros Htype Hfiles. unfold on_message, type_is, on_import.
  rewrite Htype, Hfiles. cbn. destruct files; reflexivity.
Qed.

(** C4.  For a [supersplat:import] message carrying [files]: the
    handler hands every file to the import pipeline, in order, and
    posts one [supersplat:import:error] per failed import, so that a
    failure on one file does not abort the remaining ones.  With three
    files of which the second fails and the others succeed, the run is
    import, import, one error message, import. *)
Theorem import_failure_does_not_abort
    (d : MessageData) (files : list FileDescriptor) (w : World H) :
  msg_type d = Some "supersplat:import" ->
  msg_files d = Some files ->
  (outcome_of (on_message (Some d) w) = Returned tt
   /\ calls (trace_of (on_message (Some d) w)) = map (fun f => Import [f]) files
   /\ posts (trace_of (on_message (Some d) w))
      = import_failure_posts (import_outcomes files (host w)))
  /\ (forall f1 f2 f3 h1 h2 h3 error,
        files = [f1; f2; f3] ->
        host_import [f1] (host w) = (Returned tt, h1) ->
        host_import [f2] h1 = (Threw error, h2) ->
        host_import [f3] h2 = (Returned tt, h3) ->
        on_message (Some d) w
        = (Returned tt, with_host h3 w,
           [Invoked (Import [f1]);
            Invoked (Import [f2]);
            Posted (SupersplatImportError (error_text error)) "*";
            Invoked (Import [f3])])
        /\ import_error_messages (trace_of (on_message (Some d) w))
           = [SupersplatImportError (error_text error)]).
Proof.
  intros Htype Hfiles.
  rewrite (on_message_import d files w Htype Hfiles).
  split.
  - destruct (import_loop_run files w) as (Hr & _ & Hc & Hp). auto.
  - intros f1 f2 f3 h1 h2 h3 error -> E1 E2 E3.
    assert (Hrun : for_of [f1; f2; f3] import_one w
                   = (Returned tt, with_host h3 w,
                      [Invoked (Import [f1]);
                       Invoked (Import [f2]);
                       Posted (SupersplatImportError (error_text error)) "*";
                       Invoked (Import [f3])])).
    { cbn [for_of]. unfold bind, import_one, try_catch, invoke, postMessage, ret.
      rewrite E1. cbn. rewrite E2. cbn. rewrite E3. reflexivity. }
    rewrite Hrun. split; reflexivity.
Qed.

(** C10.  A [supersplat:import] message whose [files] field is absent,
    null or an empty list makes the handler return at once: the import
    pipeline is not invoked, nothing is posted to the parent, and the
    world is unchanged. *)
Theorem import_without_files_is_silent (d : MessageData) (w : World H) :
  msg_type d = Some "supersplat:import" ->
  msg_files d = None \/ msg_files d = Some [] ->
  on_message (Some d) w = (Returned tt, w, []).
Proof.
  intros Htype Hfiles. unfold on_message, type_is, on_import.
  rewrite Htype. cbn.
  destruct Hfiles as [-> | ->]; reflexivity.
Qed.

End ImportClaims.

(** ** The export pipeline *)

Section ExportClaims.

Context {H : Type} `{Collaborators H}.

Lemma posts_of_shape c1 c2 c3 ps :
  posts (map Invoked c1 ++ map Invoked c2 ++ map Invoked c3 ++ ps) = posts ps.
Proof. now rewrite !posts_app, !posts_invoked. Qed.

Lemma calls_of_shape c1 c2 c3 ps :
  calls (map Invoked c1 ++ map Invoked c2 ++ map Invoked c3 ++ ps)
  = c1 ++ c2 ++ c3 ++ calls ps.
Proof. now rewrite !calls_app, !calls_invoked. Qed.

(** Calls of export step 3 are neither pose nor render calls. *)
Lemma step3_not_pose_or_render cs :
  Forall (fun c => export_step c = 3) cs ->
  existsb (fun c => is_pose_call c || is_render_call c) cs = false.
Proof.
  induction 1 as [|c cs Hc _ IH]; [reflexivity |].
  cbn [existsb]. rewrite IH.
  destruct c; cbn in Hc; try discriminate; reflexivity.
Qed.

(** C2.  With an empty scene [exportPly] resolves to null right after
    the scene query; and when the scene is empty in every host state,
    every call to [performExport], whatever its options, fails with an
    error and posts no [splat-editor-submit] message. *)
Theorem performExport_empty_scene_fails (options : ExportOptions) (w : World H) :
  (forall h, scene_empty h) ->
  (exists error, outcome_of (performExport options w) = Threw error)
  /\ submit_messages (trace_of (performExport options w)) = []
  /\ outcome_of (exportPly w) = Returned None.
Proof.
  intros Hempty.
  destruct (performExport_shape options w)
    as (r & h & c1 & c2 & c3 & ps & E & _ & _ & _ & _ & _ & Hr).
  rewrite E. unfold outcome_of, trace_of. cbn [fst snd].
  destruct r as [[] | error].
  - destruct Hr as (thumbnail & cameraPose & h0 & ply & Eply & _).
    rewrite (exportPly_empty_scene (with_host h0 w) (Hempty _)) in Eply.
    discriminate.
  - subst ps. repeat split.
    + now exists error.
    + unfold submit_messages. now rewrite posts_of_shape.
    + now rewrite (exportPly_empty_scene w (Hempty _)).
Qed.

(** C3.  [performExport] with thumbnail and camera pose both switched
    off never calls the pose or render APIs; and when the scene query
    and the serializer succeed and the serializer wrote
    [output.compressed.ply], it posts one [splat-editor-submit]
    message whose thumbnail and camera pose are null. *)
Theorem performExport_bare_posts_nulls (w : World H) :
  existsb (fun c => is_pose_call c || is_render_call c)
          (calls (trace_of (performExport bare_export w))) = false
  /\ forall first rest h1 memFs h2 bytes,
       host_scene_splats (host w) = (Returned (Some (first :: rest)), h1) ->
       host_serializePlyCompressed (first :: rest) serializeSettings h1
       = (Returned memFs, h2) ->
       results_get memFs "output.compressed.ply" = Some bytes ->
       performExport bare_export w
       = (Returned tt, with_host h2 w,
          [Invoked SceneSplats;
           Invoked (SerializePlyCompressed (first :: rest) serializeSettings);
           Posted (SplatEditorSubmit None bytes
                     (Filename.derive (splat_filename first)) None) "*"]).
Proof.
  split.
  - destruct (performExport_shape bare_export w)
      as (r & h & c1 & c2 & c3 & ps & E & _ & _ & F3 & N1 & N2 & Hr).
    rewrite E. unfold trace_of. cbn [snd].
    rewrite (N1 eq_refl), (N2 eq_refl), calls_of_shape. cbn [app].
    rewrite existsb_app, (step3_not_pose_or_render c3 F3).
    destruct r as [[] | error].
    + destruct Hr as (thumbnail & cameraPose & h0 & ply & _ & -> & _). reflexivity.
    + subst ps. reflexivity.
  - intros first rest h1 memFs h2 bytes Esplats Eser Eget.
    unfold performExport, bare_export, exportPly, try_catch, bind, invoke,
      postMessage, ret. cbn.
    rewrite Esplats. cbn. rewrite Eser. cbn. rewrite Eget. reflexivity.
Qed.

Lemma step1_not_render_or_serialize cs :
  Forall (fun c => export_step c = 1) cs ->
  existsb (fun c => is_render_call c || is_serialize_call c) cs = false.
Proof.
  induction 1 as [|c cs Hc _ IH]; [reflexivity |].
  cbn [existsb]. rewrite IH.
  destruct c; cbn in Hc; try discriminate; reflexivity.
Qed.

(** When the host hands back no pose object, or throws, the pose is
    unavailable: [getCameraPose] resolves to null. *)
Lemma getCameraPose_unavailable (w : World H) :
  fst (host_camera_getPose (host w)) = Returned None
  \/ (exists error, fst (host_camera_getPose (host w)) = Threw error) ->
  getCameraPose w
  = (Returned None, with_host (snd (host_camera_getPose (host w))) w,
     [Invoked CameraGetPose]).
Proof.
  unfold getCameraPose, try_catch, bind, invoke, ret.
  destruct (host_camera_getPose (host w)) as [r h1]. cbn.
  intros [-> | [error ->]]; reflexivity.
Qed.

(** C7.  In a [performExport] call with the camera pose requested, if
    [getCameraPose] yields no pose the export throws "Failed to
    capture camera pose" at once: the only calls made are pose calls
    (no render, no serialization) and nothing is posted; this is the
    run when the host hands back no pose object or throws.  In every run
    the calls are pose capture first, then thumbnail capture, then
    serialization. *)
Theorem performExport_pose_failure_and_order (options : ExportOptions) (w : World H) :
  (or_true (includeCameraPose options) = true ->
   forall w1 t1,
     getCameraPose w = (Returned None, w1, t1) ->
     performExport options w
     = (Threw (new_Error "Failed to capture camera pose"), w1, t1)
     /\ existsb (fun c => is_render_call c || is_serialize_call c) (calls t1) = false
     /\ posts t1 = [])
  /\ (or_true (includeCameraPose options) = true ->
      fst (host_camera_getPose (host w)) = Returned None
      \/ (exists error, fst (host_camera_getPose (host w)) = Threw error) ->
      performExport options w
      = (Threw (new_Error "Failed to capture camera pose"),
         with_host (snd (host_camera_getPose (host w))) w,
         [Invoked CameraGetPose]))
  /\ exists c1 c2 c3,
       calls (trace_of (performExport options w)) = c1 ++ c2 ++ c3
       /\ Forall (fun c => export_step c = 1) c1
       /\ Forall (fun c => export_step c = 2) c2
       /\ Forall (fun c => export_step c = 3) c3.
Proof.
  split; [| split].
  - intros Hon w1 t1 Epose.
    destruct (getCameraPose_settles w) as (pose & h & cs & E & F).
    rewrite Epose in E. inversion E; subst; clear E.
    repeat split.
    + unfold performExport. rewrite Hon. unfold bind at 1 2.
      rewrite Epose. cbn. now rewrite app_nil_r.
    + rewrite calls_invoked. now apply step1_not_render_or_serialize.
    + apply posts_invoked.
  - intros Hon Hhost.
    unfold performExport. rewrite Hon. unfold bind at 1 2.
    rewrite (getCameraPose_unavailable w Hhost). reflexivity.
  - destruct (performExport_shape options w)
      as (r & h & c1 & c2 & c3 & ps & E & F1 & F2 & F3 & _ & _ & Hr).
    exists c1, c2, c3. rewrite E. unfold trace_of. cbn [snd].
    rewrite calls_of_shape.
    assert (Hps : calls ps = []).
    { destruct r as [[] | error].
      - destruct Hr as (thumbnail & cameraPose & h0 & ply & _ & -> & _). reflexivity.
      - now subst ps. }
    rewrite Hps, app_nil_r. auto.
Qed.

(** C9.  If the first scene item never carries a filename (null,
    undefined or the empty string), every successful export posts
    exactly one submit message, and its filename is
    "edited.compressed.ply": the default "edited.ply" with the
    extension normalised. *)
Theorem export_default_filename (options : ExportOptions) (w : World H) :
  (forall h first rest,
      fst (host_scene_splats h) = Returned (Some (first :: rest)) ->
      filename_absent (splat_filename first)) ->
  outcome_of (performExport options w) = Returned tt ->
  exists thumbnail plyFile cameraPose,
    posts (trace_of (performExport options w))
    = [(SplatEditorSubmit thumbnail plyFile "edited.compressed.ply" cameraPose, "*")].
Proof.
  intros Habsent.
  destruct (performExport_shape options w)
    as (r & h & c1 & c2 & c3 & ps & E & _ & _ & _ & _ & _ & Hr).
  rewrite E. unfold outcome_of, trace_of. cbn [fst snd].
  intros ->.
  destruct Hr as (thumbnail & cameraPose & h0 & ply & Eply & -> & _).
  apply exportPly_success in Eply.
  destruct Eply as (first & rest & h1 & memFs & h2 & Esplats & _ & _ & Ename & _).
  assert (Hfirst : filename_absent (splat_filename first)).
  { apply (Habsent h0 first rest). cbn in Esplats. now rewrite Esplats. }
  exists thumbnail, (data ply), cameraPose.
  rewrite posts_of_shape, Ename.
  destruct Hfirst as [-> | ->]; reflexivity.
Qed.

End ExportClaims.

(** ** The two callers of the export pipeline *)

Section CallerClaims.

Context {H : Type} `{Collaborators H}.

(** The submit handler is the export run from the processing world,
    wrapped as [submit_click_result] says. *)
Lemma on_submit_click_run (w : World H) :
  on_submit_click w
  = submit_click_result (performExport full_export (processing_world w)).
Proof.
  cbv beta iota zeta delta [on_submit_click bind set_property try_catch postMessage].
  match goal with
  | |- context [performExport ?o ?w1] =>
      change (performExport o w1)
        with (performExport full_export (processing_world w))
  end.
  destruct (performExport full_export (processing_world w)) as [[[[] | error] w2] t];
    reflexivity.
Qed.

(** C1 (as the code has it).  The submit handler first disables both
    buttons and relabels submit to "Processing...", and the export
    runs in that state.  The handler itself never throws.  If the
    export fails, one [splat-editor-error] message is posted and both
    buttons end enabled with the label "Submit"; if the export
    succeeds, the buttons are not restored and end in the processing
    state. *)
Theorem submit_click_controls (w : World H) :
  exists r h t,
    performExport full_export (processing_world w)
    = (r, with_host h (processing_world w), t)
    /\ controls_processing (processing_world w) = true
    /\ outcome_of (on_submit_click w) = Returned tt
    /\ trace_of (on_submit_click w) = submit_prologue ++ t ++ submit_epilogue r
    /\ match r with
       | Threw error =>
           controls_idle (world_of (on_submit_click w)) = true
           /\ posts (submit_epilogue r) = [(SplatEditorError (error_text error), "*")]
       | Returned _ =>
           controls_processing (world_of (on_submit_click w)) = true
       end.
Proof.
  destruct (performExport_shape full_export (processing_world w))
    as (r & h & c1 & c2 & c3 & ps & E & _).
  exists r, h. eexists. split; [exact E |].
  rewrite on_submit_click_run, E.
  destruct r as [[] | error]; cbn.
  - rewrite app_nil_r. repeat split.
  - repeat split.
Qed.

(** C8.  A [supersplat:auto-export] message runs [performExport] with
    thumbnail and camera pose both off, so no pose or render call is
    made; a failure of the export is answered with exactly one
    [splat-editor-error] message and the handler does not throw; and
    the two buttons are as they were, no property of theirs having
    been written, whether the export succeeds or fails. *)
Theorem auto_export_leaves_controls (d : MessageData) (w : World H) :
  msg_type d = Some "supersplat:auto-export" ->
  on_message (Some d) w
  = (Returned tt,
     world_of (performExport bare_export w),
     trace_of (performExport bare_export w)
     ++ match outcome_of (performExport bare_export w) with
        | Returned _ => []
        | Threw error => [Posted (SplatEditorError (error_text error)) "*"]
        end)
  /\ existsb (fun c => is_pose_call c || is_render_call c)
             (calls (trace_of (on_message (Some d) w))) = false
  /\ (forall error,
        outcome_of (performExport bare_export w) = Threw error ->
        posts (trace_of (on_message (Some d) w))
        = [(SplatEditorError (error_text error), "*")])
  /\ submit (world_of (on_message (Some d) w)) = submit w
  /\ cancel (world_of (on_message (Some d) w)) = cancel w
  /\ dom_effects (trace_of (on_message (Some d) w)) = [].
Proof.
  intros Htype.
  assert (Hrun : on_message (Some d) w = on_auto_export w).
  { unfold on_message, type_is. rewrite Htype. reflexivity. }
  rewrite Hrun. unfold on_auto_export, try_catch, postMessage.
  change {| includeThumbnail := Some false; includeCameraPose := Some false |}
    with bare_export.
  destruct (performExport_shape bare_export w)
    as (r & h & c1 & c2 & c3 & ps & E & _ & _ & F3 & N1 & N2 & Hr).
  rewrite E, (N1 eq_refl), (N2 eq_refl).
  unfold outcome_of, world_of, trace_of. cbn [fst snd map app].
  destruct r as [[] | error].
  - destruct Hr as (thumbnail & cameraPose & h0 & ply & _ & -> & _).
    cbn [fst snd].
    rewrite app_nil_r, calls_app, dom_effects_app, calls_invoked,
      dom_effects_invoked, existsb_app, (step3_not_pose_or_render c3 F3).
    repeat split. intros error Habs. discriminate.
  - subst ps. cbn [fst snd].
    rewrite !app_nil_r, calls_app, dom_effects_app, posts_app, calls_invoked,
      dom_effects_invoked, posts_invoked, existsb_app,
      (step3_not_pose_or_render c3 F3).
    repeat split. intros error' Heq. inversion Heq. reflexivity.
Qed.

End CallerClaims.

(** ** Concrete runs *)

Module Runs.
Import Scripted.

Example submit_click_on_healthy_host :
  @on_submit_click _ (scripted one_model) (page [])
  = (Returned tt, processing_world (page []),
     submit_prologue
     ++ [Invoked CameraGetPose; Invoked CameraFov;
         Invoked (RenderOffscreen 512 512);
         Invoked (CanvasGetContext "2d");
         Invoked (CanvasToBlob [Byte.xff; Byte.x00; Byte.x00; Byte.xff] "image/png");
         Invoked SceneSplats;
         Invoked (SerializePlyCompressed [a_splat (Some "model.ply")] serializeSettings);
         Posted (SplatEditorSubmit (Some a_blob) ply_bytes "model.compressed.ply"
                   (Some {| position := [0%Q; 0%Q; 0%Q];
                            target := [0%Q; 0%Q; 0%Q];
                            fov := (60 # 1)%Q |})) "*"]).
Proof. reflexivity. Qed.

(** [initIframeIntegration] on a blank page inside an iframe builds
    the page used below and announces the editor twice. *)
Example init_builds_page :
  let blank := {| host := ([] : Pending);
                  window := {| self := 1; top := Returned 0 |};
                  submit := fresh_button; cancel := fresh_button;
                  body := []; listeners := [] |} in
  world_of (initIframeIntegration blank) = page []
  /\ posts (trace_of (initIframeIntegration blank))
     = [(SplatEditorReady, "*"); (SupersplatReady, "*")].
Proof. split; reflexivity. Qed.

(** C1, as stated, fails: on a host where the whole export succeeds,
    the page starts idle, the submit message is posted, and the
    buttons end disabled with the label "Processing...". *)
Lemma submit_click_success_not_idle :
  controls_idle (page []) = true
  /\ outcome_of (@on_submit_click _ (scripted one_model) (page [])) = Returned tt
  /\ submit_messages (trace_of (@on_submit_click _ (scripted one_model) (page [])))
     = [SplatEditorSubmit (Some a_blob) ply_bytes "model.compressed.ply"
          (Some {| position := [0%Q; 0%Q; 0%Q];
                   target := [0%Q; 0%Q; 0%Q];
                   fov := (60 # 1)%Q |})]
  /\ controls_idle (world_of (@on_submit_click _ (scripted one_model) (page [])))
     = false
  /\ disabled (submit (world_of (@on_submit_click _ (scripted one_model) (page []))))
     = true
  /\ disabled (cancel (world_of (@on_submit_click _ (scripted one_model) (page []))))
     = true
  /\ textContent (submit (world_of (@on_submit_click _ (scripted one_model) (page []))))
     = "Processing...".
Proof. repeat split. Qed.

Lemma performExport_empty_scene_fails_witness :
  (forall h : Pending, @scene_empty _ (scripted empty_scene) h)
  /\ (exists error,
        outcome_of (@performExport _ (scripted empty_scene) full_export (page []))
        = Threw error)
  /\ submit_messages
       (trace_of (@performExport _ (scripted empty_scene) full_export (page []))) = []
  /\ outcome_of (@exportPly _ (scripted empty_scene) (page [])) = Returned None.
Proof.
  split.
  - intros h. right. reflexivity.
  - apply (@performExport_empty_scene_fails _ (scripted empty_scene)
             full_export (page [])).
    intros h. right. reflexivity.
Defined.

Lemma performExport_bare_posts_nulls_witness :
  @performExport _ (scripted one_model) bare_export (page [])
  = (Returned tt, page [],
     [Invoked SceneSplats;
      Invoked (SerializePlyCompressed [a_splat (Some "model.ply")] serializeSettings);
      Posted (SplatEditorSubmit None ply_bytes "model.compressed.ply" None) "*"]).
Proof.
  apply (proj2 (@performExport_bare_posts_nulls _ (scripted one_model) (page []))
           (a_splat (Some "model.ply")) [] [] [("output.compressed.ply", ply_bytes)]
           [] ply_bytes);
    reflexivity.
Defined.

Lemma import_failure_does_not_abort_witness :
  msg_type (import_request (Some three_files)) = Some "supersplat:import"
  /\ msg_files (import_request (Some three_files)) = Some three_files
  /\ @on_message _ (scripted one_model)
       (Some (import_request (Some three_files))) (page second_fails)
     = (Returned tt, page [],
        [Invoked (Import [file "a.ply"]);
         Invoked (Import [file "b.ply"]);
         Posted (SupersplatImportError "unsupported file") "*";
         Invoked (Import [file "c.ply"])])
  /\ import_error_messages
       (trace_of (@on_message _ (scripted one_model)
                    (Some (import_request (Some three_files))) (page second_fails)))
     = [SupersplatImportError "unsupported file"].
Proof.
  split; [reflexivity | split; [reflexivity |]].
  apply (proj2 (@import_failure_does_not_abort _ (scripted one_model)
                  (import_request (Some three_files)) three_files
                  (page second_fails) eq_refl eq_refl)
           (file "a.ply") (file "b.ply") (file "c.ply")
           [Threw (new_Error "unsupported file"); Returned tt] [Returned tt] []
           (new_Error "unsupported file"));
    reflexivity.
Defined.

Lemma import_without_files_is_silent_witness :
  msg_type (import_request None) = Some "supersplat:import"
  /\ (msg_files (import_request None) = None
      \/ msg_files (import_request None) = Some [])
  /\ @on_message _ (scripted one_model) (Some (import_request None)) (page second_fails)
     = (Returned tt, page second_fails, []).
Proof.
  split; [reflexivity | split; [left; reflexivity |]].
  apply (@import_without_files_is_silent _ (scripted one_model)
           (import_request None) (page second_fails)).
  - reflexivity.
  - left. reflexivity.
Defined.

Lemma isInIframe_contract_witness :
  top (window (page [])) = Returned 0
  /\ 0 <> self (window (page []))
  /\ isInIframe (page []) = (Returned true, page [], [])
  /\ top (window cross_origin_page)
     = Threw (ErrorObject "SecurityError" "Blocked a frame")
  /\ isInIframe cross_origin_page = (Returned true, cross_origin_page, []).
Proof.
  split; [reflexivity | split; [discriminate | split; [| split; [reflexivity |]]]].
  - apply (proj1 (isInIframe_contract (page [])) 0); [reflexivity | discriminate].
  - apply (proj1 (proj2 (isInIframe_contract cross_origin_page))
             (ErrorObject "SecurityError" "Blocked a frame")).
    reflexivity.
Defined.

Lemma performExport_pose_failure_and_order_witness :
  or_true (includeCameraPose full_export) = true
  /\ @getCameraPose _ (scripted (with_pose (Returned None) one_model)) (page [])
     = (Returned None, page [], [Invoked CameraGetPose])
  /\ @performExport _ (scripted (with_pose (Returned None) one_model))
       full_export (page [])
     = (Threw (new_Error "Failed to capture camera pose"), page [],
        [Invoked CameraGetPose])
  /\ existsb (fun c => is_render_call c || is_serialize_call c)
             (calls [Invoked CameraGetPose]) = false
  /\ posts [Invoked CameraGetPose] = [].
Proof.
  split; [reflexivity | split; [reflexivity |]].
  apply (proj1 (@performExport_pose_failure_and_order _
                  (scripted (with_pose (Returned None) one_model))
                  full_export (page []))
           eq_refl (page []) [Invoked CameraGetPose]).
  reflexivity.
Defined.

Lemma auto_export_leaves_controls_witness :
  msg_type auto_export_request = Some "supersplat:auto-export"
  /\ posts (trace_of (@on_message _ (scripted empty_scene)
                        (Some auto_export_request) (page [])))
     = [(SplatEditorError "Failed to export PLY", "*")]
  /\ submit (world_of (@on_message _ (scripted empty_scene)
                         (Some auto_export_request) (page [])))
     = submit (page [])
  /\ cancel (world_of (@on_message _ (scripted empty_scene)
                         (Some auto_export_request) (page [])))
     = cancel (page []).
Proof.
  split; [reflexivity |].
  destruct (@auto_export_leaves_controls _ (scripted empty_scene)
              auto_export_request (page []) eq_refl)
    as (_ & _ & Hposts & Hsubmit & Hcancel & _).
  split; [| split; [exact Hsubmit | exact Hcancel]].
  apply (Hposts (new_Error "Failed to export PLY")). reflexivity.
Defined.

Lemma export_default_filename_witness :
  (forall (h : Pending) first rest,
      fst (@host_scene_splats _ (scripted unnamed_model) h)
      = Returned (Some (first :: rest)) ->
      filename_absent (splat_filename first))
  /\ outcome_of (@performExport _ (scripted unnamed_model) full_export (page []))
     = Returned tt
  /\ exists thumbnail plyFile cameraPose,
       posts (trace_of (@performExport _ (scripted unnamed_model)
                          full_export (page [])))
       = [(SplatEditorSubmit thumbnail plyFile "edited.compressed.ply" cameraPose,
           "*")].
Proof.
  assert (Habsent : forall (h : Pending) first rest,
             fst (@host_scene_splats _ (scripted unnamed_model) h)
             = Returned (Some (first :: rest)) ->
             filename_absent (splat_filename first)).
  { intros h first rest E. cbn in E. inversion E. left. reflexivity. }
  split; [exact Habsent | split; [reflexivity |]].
  apply (@export_default_filename _ (scripted unnamed_model) full_export (page [])
           Habsent).
  reflexivity.
Defined.

End Runs.

(** ** More on the filename normalisation *)

Module FilenameMore.
Import Filename.

Lemma matches_dot_ply_end_length s :
  matches_dot_ply_end s = true -> String.length s = 4.
Proof.
  destruct s as [|c1 [|c2 [|c3 [|c4 [|c5 s]]]]]; cbn; try discriminate.
  reflexivity.
Qed.

Lemma string_length_append (s1 s2 : string) :
  String.length (s1 ++ s2) = String.length s1 + String.length s2.
Proof. induction s1 as [|c s1 IH]; cbn; [reflexivity | now rewrite IH]. Qed.

(** The replacement finds a [.ply] ending behind any stem. *)
Lemma replace_ply_suffix_append stem ext :
  matches_dot_ply_end ext = true ->
  replace_ply_suffix (stem ++ ext) = (stem ++ ".compressed.ply")%string.
Proof.
  intros Hext. induction stem as [|c stem IH].
  - cbn [append]. destruct ext as [|c ext]; [discriminate |].
    cbn [replace_ply_suffix]. now rewrite Hext.
  - cbn [append replace_ply_suffix].
    destruct (matches_dot_ply_end (String c (stem ++ ext))) eqn:Hm.
    + apply matches_dot_ply_end_length in Hm.
      apply matches_dot_ply_end_length in Hext.
      cbn [String.length] in Hm. rewrite string_length_append in Hm. lia.
    + now rewrite IH.
Qed.



(** X1.  A stored name that ends in [.ply], in any mix of upper and
    lower case, and does not yet contain [.compressed.ply] keeps its
    stem and gets the ending [.compressed.ply]. *)
Theorem ensure_compressed_keeps_stem (stem ext : string) :
  matches_dot_ply_end ext = true ->
  includes ".compressed.ply" (stem ++ ext) = false ->
  ensure_compressed (stem ++ ext) = (stem ++ ".compressed.ply")%string.
Proof.
  intros Hext Hinc. unfold ensure_compressed. rewrite Hinc. cbn [negb].
  now apply replace_ply_suffix_append.
Qed.

Lemma ensure_compressed_keeps_stem_witness :
  matches_dot_ply_end ".PLY" = true
  /\ includes ".compressed.ply" ("Scan.v2" ++ ".PLY") = false
  /\ ensure_compressed ("Scan.v2" ++ ".PLY") = "Scan.v2.compressed.ply".
Proof.
  split; [reflexivity | split; [reflexivity |]].
  apply (ensure_compressed_keeps_stem "Scan.v2" ".PLY"); reflexivity.
Defined.



End FilenameMore.

(** ** Byte buffers *)

Module BufferFacts.
Import TypedArray Legacy.

Lemma fold_left_sizes (buffers : list Bytes) (n : nat) :
  fold_left (fun sum buf => sum + List.length buf) buffers n
  = n + List.length (List.concat buffers).
Proof.
  revert n. induction buffers as [|buf rest IH]; intros n; cbn [fold_left List.concat].
  - cbn. lia.
  - rewrite IH, length_app. lia.
Qed.

(** One [set] right behind the bytes written so far. *)
Lemma set_behind (done buf pad : Bytes) :
  List.length buf <= List.length pad ->
  set (done ++ pad) buf (List.length done)
  = Returned ((done ++ buf) ++ skipn (List.length buf) pad).
Proof.
  intros Hfit. unfold set.
  destruct (Nat.ltb_spec (List.length (done ++ pad))
              (List.length done + List.length buf)) as [Hlt | _].
  - rewrite length_app in Hlt. lia.
  - f_equal.
    rewrite firstn_app, firstn_all, Nat.sub_diag, firstn_O, app_nil_r.
    rewrite skipn_app, skipn_all2 by lia.
    replace (List.length done + List.length buf - List.length done)
      with (List.length buf) by lia.
    cbn [app]. now rewrite <- app_assoc.
Qed.

(** The loop invariant: what is written so far, then what is still
    untouched. *)
Lemma write_buffers_fill (buffers : list Bytes) (done pad : Bytes) :
  List.length (List.concat buffers) <= List.length pad ->
  write_buffers buffers (done ++ pad) (List.length done)
  = Returned ((done ++ List.concat buffers)
              ++ skipn (List.length (List.concat buffers)) pad).
Proof.
  revert done pad. induction buffers as [|buf rest IH]; intros done pad Hfit.
  - cbn. now rewrite app_nil_r.
  - cbn [List.concat write_buffers] in *. rewrite length_app in Hfit.
    rewrite set_behind by lia.
    replace (List.length done + List.length buf)
      with (List.length (done ++ buf)) by (rewrite length_app; lia).
    rewrite IH by (rewrite length_skipn; lia).
    rewrite skipn_skipn, length_app, <- (app_assoc done buf).
    do 3 f_equal. lia.
Qed.

(** X3.  Joining the writer's buffers never runs out of range: the
    [ArrayBuffer] built by the earlier [exportPly] holds the buffers'
    bytes one after the other, in order, and its length is the
    [totalSize] computed beforehand. *)
Theorem concatenate_is_concat (buffers : list Bytes) :
  concatenate buffers = Returned (List.concat buffers)
  /\ List.length (List.concat buffers) = totalSize buffers.
Proof.
  assert (Hsize : totalSize buffers = List.length (List.concat buffers)).
  { unfold totalSize. now rewrite fold_left_sizes. }
  split; [| now rewrite Hsize].
  unfold concatenate, new_ArrayBuffer. rewrite Hsize.
  change (repeat Byte.x00 (List.length (List.concat buffers)))
    with ([] ++ repeat Byte.x00 (List.length (List.concat buffers))).
  change 0 with (List.length (@nil Byte.byte)).
  rewrite write_buffers_fill by (rewrite repeat_length; lia).
  rewrite skipn_all2 by (rewrite repeat_length; lia).
  cbn [app]. now rewrite app_nil_r.
Qed.

(** X4.  The copy at lines 130-131 cannot throw, and the buffer posted
    to the parent holds exactly the bytes the serializer wrote. *)
Theorem copy_to_ArrayBuffer_same_bytes (data : Bytes) :
  copy_to_ArrayBuffer data = Returned data.
Proof.
  unfold copy_to_ArrayBuffer, new_ArrayBuffer.
  change (repeat Byte.x00 (List.length data))
    with ([] ++ repeat Byte.x00 (List.length data)).
  change 0 with (List.length (@nil Byte.byte)).
  rewrite set_behind by (rewrite repeat_length; lia).
  rewrite skipn_all2 by (rewrite repeat_length; lia).
  cbn [app]. now rewrite app_nil_r.
Qed.

End BufferFacts.

(** ** Start-up *)

Section StartupFacts.

Context {H : Type}.

Lemma isInIframe_run (w : World H) :
  isInIframe w
  = (Returned (match top (window w) with
               | Returned t => negb (Nat.eqb (self (window w)) t)
               | Threw _ => true
               end), w, []).
Proof.
  unfold isInIframe, try_catch, ret. destruct (top (window w)); reflexivity.
Qed.

(** X5.  The detector answers false exactly when [window.top] can be
    read and is [window.self]; in that case [initIframeIntegration]
    does nothing at all: no button, no listener, no message, and the
    world is as it was. *)
Theorem init_outside_iframe_is_inert (w : World H) :
  (outcome_of (isInIframe w) = Returned false
   <-> top (window w) = Returned (self (window w)))
  /\ (top (window w) = Returned (self (window w)) ->
      initIframeIntegration w = (Returned tt, w, [])).
Proof.
  split.
  - rewrite isInIframe_run. unfold outcome_of. cbn [fst].
    destruct (top (window w)) as [t | error].
    + destruct (Nat.eqb_spec (self (window w)) t) as [E | E]; cbn [negb].
      * subst t. split; auto.
      * split; [discriminate | intros Heq; inversion Heq; congruence].
    + split; discriminate.
  - intros Htop. unfold initIframeIntegration, bind.
    rewrite isInIframe_run, Htop, Nat.eqb_refl. reflexivity.
Qed.

(** X6.  Inside an iframe, from any page, [initIframeIntegration]
    leaves the two buttons with their identifiers, labels and class,
    both enabled; appends cancel before submit to the body; registers
    the cancel, submit and message listeners in that order; posts
    [splat-editor-ready] then [supersplat:ready], both to any origin;
    and calls no collaborator. *)
Theorem init_inside_iframe_builds_page (w : World H) :
  outcome_of (isInIframe w) = Returned true ->
  outcome_of (initIframeIntegration w) = Returned tt
  /\ submit (world_of (initIframeIntegration w))
     = {| button_id := "submit-splat-button"; textContent := "Submit";
          className := "iframe-control-button"; disabled := false |}
  /\ cancel (world_of (initIframeIntegration w))
     = {| button_id := "cancel-splat-button"; textContent := "Cancel";
          className := "iframe-control-button"; disabled := false |}
  /\ body (world_of (initIframeIntegration w)) = body w ++ [Cancel; Submit]
  /\ listeners (world_of (initIframeIntegration w))
     = listeners w ++ [CancelClick; SubmitClick; WindowMessage]
  /\ host (world_of (initIframeIntegration w)) = host w
  /\ window (world_of (initIframeIntegration w)) = window w
  /\ posts (trace_of (initIframeIntegration w))
     = [(SplatEditorReady, "*"); (SupersplatReady, "*")]
  /\ calls (trace_of (initIframeIntegration w)) = []
  /\ controls_idle (world_of (initIframeIntegration w)) = true.
Proof.
  rewrite isInIframe_run. unfold outcome_of at 1. cbn [fst].
  intros Hin. injection Hin as Hflag.
  remember (initIframeIntegration w) as run eqn:Erun.
  unfold initIframeIntegration in Erun. unfold bind at 1 in Erun.
  rewrite isInIframe_run, Hflag in Erun. cbn in Erun. subst run.
  unfold outcome_of, world_of, trace_of. cbn.
  rewrite <- !app_assoc. repeat split.
Qed.

End StartupFacts.

(** ** The three capture steps, case by case *)

Section CaptureFacts.

Context {H : Type} `{Collaborators H}.

(** X7.  [getCameraPose] never throws.  It resolves to a pose exactly
    when the host hands back a pose object with a position and a
    target and the field-of-view query returns; the pose then holds
    the three coordinates of each and that field of view.  The field
    of view is only queried once such a pose object is there. *)
Theorem getCameraPose_characterised (w : World H) :
  (exists r, outcome_of (getCameraPose w) = Returned r)
  /\ (forall cp,
        outcome_of (getCameraPose w) = Returned (Some cp)
        <-> exists p t h1 f h2,
              host_camera_getPose (host w)
              = (Returned (Some {| pose_position := Some p; pose_target := Some t |}), h1)
              /\ host_camera_fov h1 = (Returned f, h2)
              /\ cp = {| position := [x p; y p; z p];
                         target := [x t; y t; z t];
                         fov := f |})
  /\ (In CameraFov (calls (trace_of (getCameraPose w))) ->
      exists p t,
        fst (host_camera_getPose (host w))
        = Returned (Some {| pose_position := Some p; pose_target := Some t |})).
Proof.
  unfold getCameraPose, try_catch, bind, invoke, components, ret, throw,
    outcome_of, trace_of.
  destruct (host_camera_getPose (host w)) as [[[[[p|] [t|]]|]|e] h1] eqn:Epose;
    cbn;
    try (destruct (host_camera_fov h1) as [[f|e'] h2] eqn:Efov; cbn).
  all: split; [eexists; reflexivity |].
  all: split;
    [ intros cp; split;
      [ intros Hcp; try discriminate
      | intros (p' & t' & h1' & f' & h2' & E1 & E2 & ->);
        try discriminate; inversion E1; subst;
        try (rewrite Efov in E2; inversion E2; subst); try reflexivity;
        try discriminate ]
    | intros Hin; cbn in Hin;
      try (repeat destruct Hin as [Hin | Hin]; try discriminate; try contradiction);
      try (eexists; eexists; reflexivity) ].
  all: try (inversion Hcp; subst; repeat eexists; eauto).
Qed.

(** X8.  [captureThumbnail] asks for a 512 x 512 render.  It rejects
    only with the [RangeError] of the pixel copy, and only when the
    renderer handed back more bytes than the image holds while a 2d
    context was available.  It resolves to a blob exactly when the
    renderer hands back pixels that fit, a 2d context is available and
    the canvas encodes a blob.  When the renderer throws or hands back
    nothing, it resolves to null without touching the canvas. *)
Theorem captureThumbnail_characterised (w : World H) :
  (forall error,
      outcome_of (captureThumbnail w) = Threw error ->
      error = ErrorObject "RangeError" "offset is out of bounds"
      /\ exists px h1,
           host_render_offscreen 512 512 (host w) = (Returned (Some px), h1)
           /\ fst (host_getContext2d h1) = true
           /\ (image_data_length < N.of_nat (List.length px))%N)
  /\ (forall blob,
        outcome_of (captureThumbnail w) = Returned (Some blob)
        <-> exists px h1 h2 h3,
              host_render_offscreen 512 512 (host w) = (Returned (Some px), h1)
              /\ host_getContext2d h1 = (true, h2)
              /\ (N.of_nat (List.length px) <= image_data_length)%N
              /\ host_toBlob px "image/png" h2 = (Some blob, h3))
  /\ (fst (host_render_offscreen 512 512 (host w)) = Returned None
      \/ (exists error, fst (host_render_offscreen 512 512 (host w)) = Threw error) ->
      captureThumbnail w
      = (Returned None, with_host (snd (host_render_offscreen 512 512 (host w))) w,
         [Invoked (RenderOffscreen 512 512)])).
Proof.
  unfold captureThumbnail, try_catch, bind, new_Promise, settle_as, encode_png,
    bind, invoke, ret, throw, outcome_of.
  destruct (host_render_offscreen 512 512 (host w)) as [[[px|]|e] h1] eqn:Erender;
    cbn -[image_data_length N.ltb N.of_nat].
  2, 3: split; [discriminate |];
        split; [intros blob; split;
                [discriminate | intros (? & ? & ? & ? & E & _); discriminate] |];
        reflexivity.
  destruct (host_getContext2d h1) as [[|] h2] eqn:Ectx; cbn -[image_data_length N.ltb N.of_nat].
  2: { split; [discriminate |].
       split; [| intros [E | [e E]]; discriminate].
       intros blob; split; [discriminate |].
       intros (px' & h1' & h2' & h3' & E1 & E2 & _).
       inversion E1; subst. rewrite Ectx in E2. discriminate. }
  destruct (N.ltb_spec image_data_length (N.of_nat (List.length px))) as [Hbig | Hfits];
    cbn -[image_data_length N.ltb N.of_nat].
  - split; [| split].
    + intros error Herr. inversion Herr. split; [reflexivity |].
      exists px, h1. rewrite Ectx. auto.
    + intros blob; split; [discriminate |].
      intros (px' & h1' & h2' & h3' & E1 & _ & Hle & _).
      inversion E1; subst. apply N.le_ngt in Hle. contradiction.
    + intros [E | [e E]]; discriminate.
  - destruct (host_toBlob px "image/png" h2) as [[blob'|] h3] eqn:Eblob; cbn -[image_data_length N.ltb N.of_nat].
    + split; [discriminate |].
      split; [| intros [E | [e E]]; discriminate].
      intros blob; split.
      * intros Hb. inversion Hb; subst. exists px, h1, h2, h3. auto.
      * intros (px' & h1' & h2' & h3' & E1 & E2 & _ & E3).
        inversion E1; subst. rewrite Ectx in E2. inversion E2; subst.
        rewrite Eblob in E3. inversion E3. reflexivity.
    + split; [discriminate |].
      split; [| intros [E | [e E]]; discriminate].
      intros blob; split; [discriminate |].
      intros (px' & h1' & h2' & h3' & E1 & E2 & _ & E3).
      inversion E1; subst. rewrite Ectx in E2. inversion E2; subst.
      rewrite Eblob in E3. discriminate.
Qed.

(** X9.  [exportPly] never throws.  It resolves to an export exactly
    when the scene holds at least one item, the serializer, run once
    on the whole list with the fixed settings, returns, and it wrote
    [output.compressed.ply]; the export then carries exactly those
    bytes and the name derived from the first item.  The serializer is
    not run on an absent or empty scene. *)
Theorem exportPly_characterised (w : World H) :
  (exists r, outcome_of (exportPly w) = Returned r)
  /\ (forall ply,
        outcome_of (exportPly w) = Returned (Some ply)
        <-> exists first rest h1 memFs h2,
              host_scene_splats (host w) = (Returned (Some (first :: rest)), h1)
              /\ host_serializePlyCompressed (first :: rest) serializeSettings h1
                 = (Returned memFs, h2)
              /\ results_get memFs "output.compressed.ply" = Some (data ply)
              /\ filename ply = Filename.derive (splat_filename first))
  /\ (In SceneSplats (calls (trace_of (exportPly w))))
  /\ (forall items settings,
        In (SerializePlyCompressed items settings) (calls (trace_of (exportPly w))) ->
        settings = serializeSettings
        /\ items <> []
        /\ fst (host_scene_splats (host w)) = Returned (Some items)).
Proof.
  split; [| split; [| split]].
  - destruct (exportPly_settles w) as (ply & h & cs & E & _).
    exists ply. now rewrite E.
  - intros ply. split.
    + destruct (exportPly w) as [[r w1] t] eqn:E. unfold outcome_of. cbn [fst].
      intros ->. apply exportPly_success in E.
      destruct E as (first & rest & h1 & memFs & h2 & E1 & E2 & E3 & E4 & _).
      exists first, rest, h1, memFs, h2. auto.
    + intros (first & rest & h1 & memFs & h2 & E1 & E2 & E3 & E4).
      unfold exportPly, try_catch, bind, invoke, ret, outcome_of.
      rewrite E1. cbn. rewrite E2. cbn. rewrite E3. cbn.
      destruct ply as [name bytes]. cbn in E4. now rewrite E4.
  - unfold exportPly, try_catch, bind, invoke, ret, trace_of.
    run_all; left; reflexivity.
  - intros items settings.
    unfold exportPly, try_catch, bind, invoke, ret, trace_of.
    destruct (host_scene_splats (host w)) as [[[[|first rest]|]|e] h1]; cbn;
      try (intros [Habs | []]; discriminate).
    destruct (host_serializePlyCompressed (first :: rest) serializeSettings h1)
      as [[memFs|e] h2]; cbn;
      [destruct (results_get memFs "output.compressed.ply"); cbn |];
      (intros [Habs | [Hin | []]]; [discriminate |]);
      inversion Hin; subst; repeat split; discriminate.
Qed.

End CaptureFacts.

(** ** How an export ends *)

Section OutcomeFacts.

Context {H : Type} `{Collaborators H}.

Lemma getCameraPose_spec (w : World H) :
  exists pose h cs,
    getCameraPose w = (Returned pose, with_host h w, map Invoked cs)
    /\ forall cp, pose = Some cp ->
                  List.length (position cp) = 3 /\ List.length (target cp) = 3.
Proof.
  unfold getCameraPose, try_catch, bind, invoke, components, ret, throw.
  run_all.
  all: eexists; eexists; eexists; split;
    [ first [ instantiate (1 := [CameraGetPose; CameraFov]); reflexivity
            | instantiate (1 := [CameraGetPose]); reflexivity ]
    | intros ? Hcp; inversion Hcp; subst; split; reflexivity ].
Qed.

Lemma captureThumbnail_spec (w : World H) :
  exists r h cs,
    captureThumbnail w = (r, with_host h w, map Invoked cs)
    /\ forall error, r = Threw error ->
                     error = ErrorObject "RangeError" "offset is out of bounds".
Proof.
  unfold captureThumbnail, try_catch, bind, new_Promise, settle_as,
    encode_png, bind, invoke, ret, throw.
  run_all.
  all: eexists; eexists; eexists; split;
    [ first [ instantiate (1 := [RenderOffscreen 512 512]); reflexivity
            | instantiate (1 := [RenderOffscreen 512 512; CanvasGetContext "2d"]);
              reflexivity
            | instantiate (1 := [RenderOffscreen 512 512; CanvasGetContext "2d";
                                 CanvasToBlob _ "image/png"]);
              reflexivity ]
    | intros ? Herr; inversion Herr; reflexivity ].
Qed.

(** Every run of [performExport], by the way it ends. *)
Lemma performExport_cases (options : ExportOptions) (w : World H) :
  exists r h cs ps,
    performExport options w = (r, with_host h w, map Invoked cs ++ ps)
    /\ match r with
       | Threw error => In error export_errors /\ ps = []
       | Returned _ =>
           exists thumbnail cameraPose ply,
             ps = [Posted (SplatEditorSubmit thumbnail (data ply)
                              (filename ply) cameraPose) "*"]
             /\ (or_true (includeThumbnail options) = true -> thumbnail <> None)
             /\ (or_true (includeThumbnail options) = false -> thumbnail = None)
             /\ (or_true (includeCameraPose options) = true ->
                 exists cp, cameraPose = Some cp
                            /\ List.length (position cp) = 3
                            /\ List.length (target cp) = 3)
             /\ (or_true (includeCameraPose options) = false -> cameraPose = None)
       end.
Proof.
  unfold performExport.
  assert (Hpose : exists r h c1,
    (if or_true (includeCameraPose options)
     then pose <- getCameraPose ;;
          match pose with
          | None => throw (new_Error "Failed to capture camera pose")
          | Some pose => ret (Some pose)
          end
     else ret None) w = (r, with_host h w, map Invoked c1)
    /\ match r with
       | Threw error => error = new_Error "Failed to capture camera pose"
       | Returned cameraPose =>
           (or_true (includeCameraPose options) = true ->
            exists cp, cameraPose = Some cp
                       /\ List.length (position cp) = 3
                       /\ List.length (target cp) = 3)
           /\ (or_true (includeCameraPose options) = false -> cameraPose = None)
       end).
  { destruct (or_true (includeCameraPose options)).
    - destruct (getCameraPose_spec w) as (pose & h & cs & E & Hlen).
      unfold bind. rewrite E.
      destruct pose as [cp|]; cbn; rewrite app_nil_r;
        eexists; exists h, cs; (split; [reflexivity |]).
      + split; [| discriminate]. intros _. exists cp. split; [reflexivity | now apply Hlen].
      + reflexivity.
    - exists (Returned None), (host w), []. rewrite with_host_same.
      split; [reflexivity |]. split; [discriminate | reflexivity]. }
  destruct Hpose as (r1 & h1 & c1 & E1 & P1).
  unfold bind at 1. rewrite E1.
  destruct r1 as [cameraPose | e1].
  2:{ exists (Threw e1), h1, c1, []. subst e1. rewrite app_nil_r.
      split; [reflexivity |].
      split; [left; reflexivity | reflexivity]. }
  assert (Hthumb : exists r h c2,
    (if or_true (includeThumbnail options)
     then blob <- captureThumbnail ;;
          match blob with
          | None => throw (new_Error "Failed to capture thumbnail")
          | Some blob => ret (Some blob)
          end
     else ret None) (with_host h1 w) = (r, with_host h w, map Invoked c2)
    /\ match r with
       | Threw error => In error export_errors
       | Returned thumbnail =>
           (or_true (includeThumbnail options) = true -> thumbnail <> None)
           /\ (or_true (includeThumbnail options) = false -> thumbnail = None)
       end).
  { destruct (or_true (includeThumbnail options)).
    - destruct (captureThumbnail_spec (with_host h1 w)) as (blob & h & cs & E & Hrange).
      unfold bind. rewrite E.
      destruct blob as [[blob|]|e]; cbn; try rewrite app_nil_r;
        eexists; exists h, cs; (split; [reflexivity |]).
      + split; [discriminate | discriminate].
      + right. left. reflexivity.
      + rewrite (Hrange e eq_refl). right. right. right. left. reflexivity.
    - exists (Returned None), h1, [].
      split; [reflexivity |]. split; [discriminate | reflexivity]. }
  destruct Hthumb as (r2 & h2 & c2 & E2 & P2).
  unfold bind at 1. rewrite E2.
  destruct r2 as [thumbnail | e2].
  2:{ exists (Threw e2), h2, (c1 ++ c2), []. rewrite map_app, app_nil_r.
      split; [reflexivity |]. split; [exact P2 | reflexivity]. }
  destruct (exportPly_settles (with_host h2 w)) as (ply & h3 & c3 & E3 & _).
  unfold bind. rewrite E3. rewrite with_host_with_host in *.
  destruct ply as [ply|]; cbn.
  - exists (Returned tt), h3, (c1 ++ c2 ++ c3),
      [Posted (SplatEditorSubmit thumbnail (data ply) (filename ply) cameraPose) "*"].
    rewrite !map_app, <- !app_assoc. split; [reflexivity |].
    exists thumbnail, cameraPose, ply. destruct P1, P2. auto.
  - exists (Threw (new_Error "Failed to export PLY")), h3, (c1 ++ c2 ++ c3), [].
    rewrite !map_app, !app_nil_r. split; [reflexivity |].
    split; [right; right; left; reflexivity | reflexivity].
Qed.

Lemma posts_submit_prologue t : posts (submit_prologue ++ t) = posts t.
Proof. reflexivity. Qed.

(** X10.  A failed [performExport] posts nothing, and the value it
    throws is one of four: the three errors the function raises itself
    and the [RangeError] of the pixel copy.  The text a caller derives
    from it for the parent is therefore one of four fixed strings. *)
Theorem performExport_failure_is_one_of_four
    (options : ExportOptions) (w : World H) (error : Thrown) :
  outcome_of (performExport options w) = Threw error ->
  In error export_errors
  /\ In (error_text error)
        ["Failed to capture camera pose"; "Failed to capture thumbnail";
         "Failed to export PLY"; "offset is out of bounds"]
  /\ posts (trace_of (performExport options w)) = [].
Proof.
  destruct (performExport_cases options w) as (r & h & cs & ps & E & Hr).
  rewrite E. unfold outcome_of, trace_of. cbn [fst snd].
  intros ->. destruct Hr as [Hin ->].
  split; [exact Hin | split].
  - unfold export_errors in Hin. cbn in Hin.
    destruct Hin as [<- | [<- | [<- | [<- | []]]]]; cbn; auto.
  - now rewrite app_nil_r, posts_invoked.
Qed.

(** X11.  A [performExport] that returns has posted exactly one
    message, a [splat-editor-submit] to any origin; a requested
    thumbnail is not null in it, a requested camera pose is not null
    and has three position and three target coordinates, and a piece
    that was not requested is null. *)
Theorem performExport_success_payload (options : ExportOptions) (w : World H) :
  outcome_of (performExport options w) = Returned tt ->
  exists thumbnail plyFile name cameraPose,
    posts (trace_of (performExport options w))
    = [(SplatEditorSubmit thumbnail plyFile name cameraPose, "*")]
    /\ (or_true (includeThumbnail options) = true -> thumbnail <> None)
    /\ (or_true (includeThumbnail options) = false -> thumbnail = None)
    /\ (or_true (includeCameraPose options) = true ->
        exists cp, cameraPose = Some cp
                   /\ List.length (position cp) = 3
                   /\ List.length (target cp) = 3)
    /\ (or_true (includeCameraPose options) = false -> cameraPose = None).
Proof.
  destruct (performExport_cases options w) as (r & h & cs & ps & E & Hr).
  rewrite E. unfold outcome_of, trace_of. cbn [fst snd].
  intros ->. destruct Hr as (thumbnail & cameraPose & ply & -> & Hfacts).
  exists thumbnail, (data ply), (filename ply), cameraPose.
  split; [| exact Hfacts].
  now rewrite posts_app, posts_invoked.
Qed.

(** X12.  Every submit click, and every auto-export, posts exactly one
    message to the parent, to any origin: either the submit message or
    an error message, never both and never none. *)
Theorem one_message_per_export (w : World H) :
  (exists m,
      posts (trace_of (on_submit_click w)) = [(m, "*")]
      /\ xorb (is_submit m) (is_error m) = true)
  /\ (exists m,
        posts (trace_of (on_auto_export w)) = [(m, "*")]
        /\ xorb (is_submit m) (is_error m) = true).
Proof.
  split.
  - rewrite on_submit_click_run.
    destruct (performExport_cases full_export (processing_world w))
      as (r & h & cs & ps & E & Hr).
    rewrite E. unfold submit_click_result, trace_of.
    destruct r as [[] | error]; cbn [snd].
    + destruct Hr as (thumbnail & cameraPose & ply & -> & _).
      eexists. rewrite posts_submit_prologue, posts_app, posts_invoked.
      split; reflexivity.
    + destruct Hr as [_ ->].
      eexists. rewrite posts_submit_prologue, !posts_app, posts_invoked.
      split; reflexivity.
  - unfold on_auto_export, try_catch, postMessage.
    change {| includeThumbnail := Some false; includeCameraPose := Some false |}
      with bare_export.
    destruct (performExport_cases bare_export w) as (r & h & cs & ps & E & Hr).
    rewrite E. unfold trace_of.
    destruct r as [[] | error]; cbn [snd].
    + destruct Hr as (thumbnail & cameraPose & ply & -> & _).
      eexists. rewrite posts_app, posts_invoked. split; reflexivity.
    + destruct Hr as [_ ->].
      eexists. rewrite !posts_app, posts_invoked. split; reflexivity.
Qed.

End OutcomeFacts.

(** ** What the runs call and what they leave alone *)

Section FrameFacts.

Context {H : Type} `{Collaborators H}.

Lemma same_page_refl (w : World H) : same_page w w.
Proof. repeat split. Qed.

Lemma same_page_trans (w w1 w2 : World H) :
  same_page w w1 -> same_page w1 w2 -> same_page w w2.
Proof.
  unfold same_page. intros (A1 & A2 & A3 & A4 & A5) (B1 & B2 & B3 & B4 & B5).
  repeat split; congruence.
Qed.

Section Closure.

Variable P : Call -> Prop.

Lemma calls_satisfy_ret {A} (a : A) : calls_satisfy P (@ret H A a).
Proof. intros w. constructor. Qed.

Lemma calls_satisfy_throw {A} error : calls_satisfy P (@throw H A error).
Proof. intros w. constructor. Qed.

Lemma calls_satisfy_settle_as {A} (p : Outcome A) : calls_satisfy P (@settle_as H A p).
Proof. intros w. constructor. Qed.

Lemma calls_satisfy_postMessage m o : calls_satisfy P (@postMessage H m o).
Proof. intros w. constructor. Qed.

Lemma calls_satisfy_invoke {A} c (f : H -> Outcome A * H) :
  P c -> calls_satisfy P (invoke c f).
Proof.
  intros Hc w. unfold invoke, trace_of. destruct (f (host w)) as [r h].
  cbn. constructor; [exact Hc | constructor].
Qed.

Lemma calls_satisfy_bind {A B} (m : M H A) (k : A -> M H B) :
  calls_satisfy P m -> (forall a, calls_satisfy P (k a)) ->
  calls_satisfy P (bind m k).
Proof.
  intros Hm Hk w. specialize (Hm w). unfold bind, trace_of in *.
  destruct (m w) as [[[a | error] w1] t1]; cbn [snd] in *; [| exact Hm].
  specialize (Hk a w1). unfold trace_of in Hk.
  destruct (k a w1) as [[r w2] t2]. cbn [snd] in *.
  rewrite calls_app. apply Forall_app. auto.
Qed.

Lemma calls_satisfy_try_catch {A} (m : M H A) (handler : Thrown -> M H A) :
  calls_satisfy P m -> (forall error, calls_satisfy P (handler error)) ->
  calls_satisfy P (try_catch m handler).
Proof.
  intros Hm Hk w. specialize (Hm w). unfold try_catch, trace_of in *.
  destruct (m w) as [[[a | error] w1] t1]; cbn [snd] in *; [exact Hm |].
  specialize (Hk error w1). unfold trace_of in Hk.
  destruct (handler error w1) as [[r w2] t2]. cbn [snd] in *.
  rewrite calls_app. apply Forall_app. auto.
Qed.

Lemma calls_satisfy_new_Promise {A} (m : M H A) :
  calls_satisfy P m -> calls_satisfy P (new_Promise m).
Proof.
  intros Hm w. specialize (Hm w). unfold new_Promise, trace_of in *.
  destruct (m w) as [[r w1] t1]. exact Hm.
Qed.

End Closure.

Lemma keeps_page_ret {A} (a : A) : keeps_page (@ret H A a).
Proof. intros w. split; [apply same_page_refl | reflexivity]. Qed.

Lemma keeps_page_throw {A} error : keeps_page (@throw H A error).
Proof. intros w. split; [apply same_page_refl | reflexivity]. Qed.

Lemma keeps_page_settle_as {A} (p : Outcome A) : keeps_page (@settle_as H A p).
Proof. intros w. split; [apply same_page_refl | reflexivity]. Qed.

Lemma keeps_page_postMessage m o : keeps_page (@postMessage H m o).
Proof. intros w. split; [apply same_page_refl | reflexivity]. Qed.

Lemma keeps_page_invoke {A} c (f : H -> Outcome A * H) : keeps_page (invoke c f).
Proof.
  intros w. unfold invoke, world_of, trace_of. destruct (f (host w)) as [r h].
  split; [repeat split | reflexivity].
Qed.

Lemma keeps_page_bind {A B} (m : M H A) (k : A -> M H B) :
  keeps_page m -> (forall a, keeps_page (k a)) -> keeps_page (bind m k).
Proof.
  intros Hm Hk w. destruct (Hm w) as [Hw Ht]. unfold bind, world_of, trace_of in *.
  destruct (m w) as [[[a | error] w1] t1]; cbn [fst snd] in *; [| auto].
  destruct (Hk a w1) as [Hw1 Ht1]. unfold world_of, trace_of in *.
  destruct (k a w1) as [[r w2] t2]. cbn [fst snd] in *.
  split; [now apply (same_page_trans w w1 w2) |].
  now rewrite dom_effects_app, Ht, Ht1.
Qed.

Lemma keeps_page_try_catch {A} (m : M H A) (handler : Thrown -> M H A) :
  keeps_page m -> (forall error, keeps_page (handler error)) ->
  keeps_page (try_catch m handler).
Proof.
  intros Hm Hk w. destruct (Hm w) as [Hw Ht]. unfold try_catch, world_of, trace_of in *.
  destruct (m w) as [[[a | error] w1] t1]; cbn [fst snd] in *; [auto |].
  destruct (Hk error w1) as [Hw1 Ht1]. unfold world_of, trace_of in *.
  destruct (handler error w1) as [[r w2] t2]. cbn [fst snd] in *.
  split; [now apply (same_page_trans w w1 w2) |].
  now rewrite dom_effects_app, Ht, Ht1.
Qed.

Lemma keeps_page_new_Promise {A} (m : M H A) :
  keeps_page m -> keeps_page (new_Promise m).
Proof.
  intros Hm w. specialize (Hm w). unfold new_Promise, world_of, trace_of in *.
  destruct (m w) as [[r w1] t1]. exact Hm.
Qed.


Ltac compose_calls :=
  repeat first
    [ apply calls_satisfy_bind; [| intros ?]
    | apply calls_satisfy_try_catch; [| intros ?]
    | apply calls_satisfy_new_Promise
    | apply calls_satisfy_ret
    | apply calls_satisfy_throw
    | apply calls_satisfy_settle_as
    | apply calls_satisfy_postMessage
    | apply calls_satisfy_invoke; cbn; auto
    | match goal with
      | |- calls_satisfy _ (match ?x with _ => _ end) => destruct x
      | |- calls_satisfy _ (if ?x then _ else _) => destruct x
      end ].

Ltac compose_page :=
  repeat first
    [ apply keeps_page_bind; [| intros ?]
    | apply keeps_page_try_catch; [| intros ?]
    | apply keeps_page_new_Promise
    | apply keeps_page_ret
    | apply keeps_page_throw
    | apply keeps_page_settle_as
    | apply keeps_page_postMessage
    | apply keeps_page_invoke
    | match goal with
      | |- keeps_page (match ?x with _ => _ end) => destruct x
      | |- keeps_page (if ?x then _ else _) => destruct x
      end ].

Lemma performExport_calls_fixed options :
  calls_satisfy fixed_parameters (performExport options).
Proof.
  unfold performExport, getCameraPose, captureThumbnail, exportPly,
    encode_png, components.
  compose_calls.
Qed.

Lemma performExport_keeps_page options : keeps_page (performExport options).
Proof.
  unfold performExport, getCameraPose, captureThumbnail, exportPly,
    encode_png, components.
  compose_page.
Qed.

Lemma calls_satisfy_set_property P c d : calls_satisfy P (@set_property H c d).
Proof. intros w. constructor. Qed.

(** X19.  [performExport], under any options and on any host, changes
    nothing but the host state: both buttons, the body, the listeners
    and the window are as before and no button property is written.
    Its trace is a run of collaborator calls followed by the posts, of
    which there is at most one: nothing is posted before the last
    call has returned. *)
Theorem performExport_touches_host_only (options : ExportOptions) (w : World H) :
  same_page w (world_of (performExport options w))
  /\ dom_effects (trace_of (performExport options w)) = []
  /\ trace_of (performExport options w)
     = map Invoked (calls (trace_of (performExport options w)))
       ++ map (fun p => Posted (fst p) (snd p))
              (posts (trace_of (performExport options w)))
  /\ List.length (posts (trace_of (performExport options w))) <= 1.
Proof.
  destruct (performExport_keeps_page options w) as [Hpage Hdom].
  split; [exact Hpage | split; [exact Hdom |]].
  destruct (performExport_cases options w) as (r & h & cs & ps & E & Hr).
  rewrite E. unfold trace_of. cbn [snd].
  rewrite calls_app, posts_app, calls_invoked, posts_invoked. cbn [app].
  destruct r as [[] | error].
  - destruct Hr as (thumbnail & cameraPose & ply & -> & _).
    cbn. rewrite app_nil_r. split; [reflexivity | lia].
  - destruct Hr as [_ ->]. cbn. rewrite !app_nil_r. split; [reflexivity | lia].
Qed.

(** X13.  Whatever the options and the host, the export pipeline asks
    for a 512 x 512 render, a "2d" context and an "image/png" blob,
    runs the serializer with the settings of the source (three
    spherical-harmonics bands, minimum opacity 1/255, invalid points
    removed), and never calls the import pipeline; the same holds for a
    whole submit click and a whole auto-export. *)
Theorem export_calls_use_fixed_parameters (options : ExportOptions) (w : World H) :
  Forall fixed_parameters (calls (trace_of (performExport options w)))
  /\ Forall fixed_parameters (calls (trace_of (on_submit_click w)))
  /\ Forall fixed_parameters (calls (trace_of (on_auto_export w))).
Proof.
  split; [apply performExport_calls_fixed | split].
  - revert w. change (calls_satisfy fixed_parameters on_submit_click).
    unfold on_submit_click.
    repeat first
      [ apply performExport_calls_fixed
      | apply calls_satisfy_set_property
      | apply calls_satisfy_postMessage
      | apply calls_satisfy_try_catch; [| intros ?]
      | apply calls_satisfy_bind; [| intros ?] ].
  - revert w. change (calls_satisfy fixed_parameters on_auto_export).
    unfold on_auto_export.
    apply calls_satisfy_try_catch;
      [apply performExport_calls_fixed | intros ?; apply calls_satisfy_postMessage].
Qed.



(** X15.  A message that is neither a [supersplat:import] nor a
    [supersplat:auto-export], a message without a type and an event
    without data are ignored: nothing is called, nothing is posted,
    the world is unchanged. *)
Theorem other_messages_are_ignored (e_data : option MessageData) (w : World H) :
  (forall d, e_data = Some d ->
             msg_type d <> Some "supersplat:import"
             /\ msg_type d <> Some "supersplat:auto-export") ->
  on_message e_data w = (Returned tt, w, []).
Proof.
  intros Hother. unfold on_message, type_is.
  destruct e_data as [d|]; [| reflexivity].
  destruct (Hother d eq_refl) as [Himport Hauto].
  destruct (msg_type d) as [t|]; [| reflexivity].
  destruct (String.eqb_spec t "supersplat:import") as [-> | _]; [congruence |].
  destruct (String.eqb_spec t "supersplat:auto-export") as [-> | _]; [congruence |].
  reflexivity.
Qed.

(** X16.  A submit click writes nothing but the two disabled flags and
    the label of the submit button: identifiers and class names of
    both buttons, the label of the cancel button, the body, the
    listeners and the window are as before, however the export ends. *)
Theorem submit_click_writes_flags_and_label_only (w : World H) :
  button_id (submit (world_of (on_submit_click w))) = button_id (submit w)
  /\ className (submit (world_of (on_submit_click w))) = className (submit w)
  /\ button_id (cancel (world_of (on_submit_click w))) = button_id (cancel w)
  /\ className (cancel (world_of (on_submit_click w))) = className (cancel w)
  /\ textContent (cancel (world_of (on_submit_click w))) = textContent (cancel w)
  /\ body (world_of (on_submit_click w)) = body w
  /\ listeners (world_of (on_submit_click w)) = listeners w
  /\ window (world_of (on_submit_click w)) = window w.
Proof.
  rewrite on_submit_click_run.
  destruct (performExport_keeps_page full_export (processing_world w))
    as [(Hwin & Hsub & Hcan & Hbody & Hlis) _].
  unfold world_of in *.
  destruct (performExport full_export (processing_world w)) as [[[[] | error] w2] t];
    cbn [submit_click_result fst snd restored_world submit cancel body listeners window
         button_id className textContent] in *;
    rewrite ?Hwin, ?Hsub, ?Hcan, ?Hbody, ?Hlis; repeat split.
Qed.

(** X17.  When the buttons are idle before a submit click and the
    click reports an error to the parent, the page is after the click
    exactly as it was before: both buttons are equal to what they
    were, field by field. *)
Theorem failed_submit_click_restores_page (w : World H) (text : string) :
  controls_idle w = true ->
  In (SplatEditorError text, "*") (posts (trace_of (on_submit_click w))) ->
  same_page w (world_of (on_submit_click w)).
Proof.
  unfold controls_idle. intros Hidle Hposted.
  apply andb_prop in Hidle. destruct Hidle as [Hflags Hlabel].
  apply andb_prop in Hflags. destruct Hflags as [Hsubmit Hcancel].
  apply negb_true_iff in Hsubmit. apply negb_true_iff in Hcancel.
  apply String.eqb_eq in Hlabel.
  rewrite on_submit_click_run in *.
  destruct (performExport_keeps_page full_export (processing_world w))
    as [(Hwin & Hsub & Hcan & Hbody & Hlis) _].
  destruct (performExport_cases full_export (processing_world w))
    as (r & h & cs & ps & E & Hr).
  rewrite E in *. unfold world_of, trace_of in *.
  destruct r as [[] | error];
    cbn [submit_click_result fst snd] in *.
  - destruct Hr as (thumbnail & cameraPose & ply & -> & _).
    rewrite posts_submit_prologue, posts_app, posts_invoked in Hposted.
    cbn in Hposted. destruct Hposted as [Habs | []]. discriminate.
  - unfold same_page.
    cbn [restored_world submit cancel body listeners window] in *.
    rewrite Hwin, Hsub, Hcan, Hbody, Hlis.
    cbn [processing_world submit cancel body listeners window
         button_id className textContent].
    destruct (submit w) as [i1 l1 c1 d1], (cancel w) as [i2 l2 c2 d2].
    cbn in Hsubmit, Hcancel, Hlabel. subst. repeat split.
Qed.

End FrameFacts.

(** ** Import batches *)

Section BatchFacts.

Context {H : Type} `{Collaborators H}.

Lemma for_of_app {A} (xs ys : list A) (body : A -> M H unit) (w : World H) :
  for_of (xs ++ ys) body w = (for_of xs body ;; for_of ys body) w.
Proof.
  revert w. induction xs as [|item xs IH]; intros w.
  - cbn [app for_of]. unfold bind, ret.
    destruct (for_of ys body w) as [[r w2] t2]. reflexivity.
  - cbn [app for_of]. unfold bind.
    destruct (body item w) as [[[[] | error] w1] t1]; [| reflexivity].
    rewrite IH. unfold bind.
    destruct (for_of xs body w1) as [[[[] | error] w2] t2]; [| reflexivity].
    destruct (for_of ys body w2) as [[r w3] t3].
    now rewrite app_assoc.
Qed.

(** X18.  One [supersplat:import] message carrying the files of two
    messages one after the other does what the two messages do in
    turn: the same calls and posts in the same order, and the same
    final world. *)
Theorem import_batches_compose
    (d1 d2 d12 : MessageData) (xs ys : list FileDescriptor) (w : World H) :
  msg_type d1 = Some "supersplat:import" -> msg_files d1 = Some xs ->
  msg_type d2 = Some "supersplat:import" -> msg_files d2 = Some ys ->
  msg_type d12 = Some "supersplat:import" -> msg_files d12 = Some (xs ++ ys) ->
  world_of (on_message (Some d12) w)
  = world_of (on_message (Some d2) (world_of (on_message (Some d1) w)))
  /\ trace_of (on_message (Some d12) w)
     = trace_of (on_message (Some d1) w)
       ++ trace_of (on_message (Some d2) (world_of (on_message (Some d1) w))).
Proof.
  intros T1 F1 T2 F2 T12 F12.
  rewrite (on_message_import d12 (xs ++ ys) w T12 F12).
  rewrite (on_message_import d1 xs w T1 F1).
  rewrite (on_message_import d2 ys _ T2 F2).
  rewrite for_of_app. unfold bind.
  pose proof (proj1 (import_loop_run xs w)) as Hxs.
  unfold outcome_of, world_of, trace_of in *.
  destruct (for_of xs import_one w) as [[r1 w1] t1]. cbn [fst snd] in *. subst r1.
  destruct (for_of ys import_one w1) as [[r2 w2] t2]. split; reflexivity.
Qed.

End BatchFacts.

(** ** More concrete runs *)

Module MoreRuns.
Import Scripted.

Lemma init_inside_iframe_builds_page_witness :
  outcome_of (isInIframe cross_origin_page) = Returned true
  /\ body (world_of (initIframeIntegration cross_origin_page)) = [Cancel; Submit]
  /\ posts (trace_of (initIframeIntegration cross_origin_page))
     = [(SplatEditorReady, "*"); (SupersplatReady, "*")].
Proof.
  split; [reflexivity |].
  destruct (init_inside_iframe_builds_page cross_origin_page eq_refl)
    as (_ & _ & _ & Hbody & _ & _ & _ & Hposts & _).
  split; [exact Hbody | exact Hposts].
Defined.

Lemma init_outside_iframe_is_inert_witness :
  top (window top_level_page) = Returned (self (window top_level_page))
  /\ outcome_of (isInIframe top_level_page) = Returned false
  /\ initIframeIntegration top_level_page = (Returned tt, top_level_page, []).
Proof.
  split; [reflexivity |].
  destruct (init_outside_iframe_is_inert top_level_page) as [Hiff Hinit].
  split; [apply Hiff; reflexivity | apply Hinit; reflexivity].
Defined.

Lemma performExport_failure_is_one_of_four_witness :
  outcome_of (@performExport _ (scripted empty_scene) full_export (page []))
  = Threw (new_Error "Failed to export PLY")
  /\ In (new_Error "Failed to export PLY") export_errors
  /\ In (error_text (new_Error "Failed to export PLY"))
        ["Failed to capture camera pose"; "Failed to capture thumbnail";
         "Failed to export PLY"; "offset is out of bounds"]
  /\ posts (trace_of (@performExport _ (scripted empty_scene) full_export (page [])))
     = [].
Proof.
  split; [reflexivity |].
  apply (@performExport_failure_is_one_of_four _ (scripted empty_scene)
           full_export (page []) (new_Error "Failed to export PLY")).
  reflexivity.
Defined.

Lemma performExport_success_payload_witness :
  outcome_of (@performExport _ (scripted one_model) full_export (page []))
  = Returned tt
  /\ exists thumbnail plyFile name cameraPose,
       posts (trace_of (@performExport _ (scripted one_model) full_export (page [])))
       = [(SplatEditorSubmit thumbnail plyFile name cameraPose, "*")]
       /\ (or_true (includeThumbnail full_export) = true -> thumbnail <> None)
       /\ (or_true (includeThumbnail full_export) = false -> thumbnail = None)
       /\ (or_true (includeCameraPose full_export) = true ->
           exists cp, cameraPose = Some cp
                      /\ List.length (position cp) = 3
                      /\ List.length (target cp) = 3)
       /\ (or_true (includeCameraPose full_export) = false -> cameraPose = None).
Proof.
  split; [reflexivity |].
  apply (@performExport_success_payload _ (scripted one_model) full_export (page [])).
  reflexivity.
Defined.

Lemma other_messages_are_ignored_witness :
  (forall d,
      Some {| msg_type := Some "supersplat:reset"; msg_files := Some three_files |}
      = Some d ->
      msg_type d <> Some "supersplat:import"
      /\ msg_type d <> Some "supersplat:auto-export")
  /\ @on_message _ (scripted one_model)
       (Some {| msg_type := Some "supersplat:reset"; msg_files := Some three_files |})
       (page second_fails)
     = (Returned tt, page second_fails, []).
Proof.
  assert (Hother : forall d,
             Some {| msg_type := Some "supersplat:reset";
                     msg_files := Some three_files |} = Some d ->
             msg_type d <> Some "supersplat:import"
             /\ msg_type d <> Some "supersplat:auto-export").
  { intros d Hd. injection Hd as <-. split; discriminate. }
  split; [exact Hother |].
  apply (@other_messages_are_ignored _ (scripted one_model) _ (page second_fails) Hother).
Defined.

Lemma failed_submit_click_restores_page_witness :
  controls_idle (page []) = true
  /\ In (SplatEditorError "Failed to export PLY", "*")
        (posts (trace_of (@on_submit_click _ (scripted empty_scene) (page []))))
  /\ same_page (page [])
       (world_of (@on_submit_click _ (scripted empty_scene) (page []))).
Proof.
  split; [reflexivity | split; [left; reflexivity |]].
  apply (@failed_submit_click_restores_page _ (scripted empty_scene) (page [])
           "Failed to export PLY").
  - reflexivity.
  - left. reflexivity.
Defined.

Lemma import_batches_compose_witness :
  world_of (@on_message _ (scripted one_model)
              (Some (import_request (Some ([file "a.ply"] ++ [file "b.ply"; file "c.ply"]))))
              (page second_fails))
  = world_of (@on_message _ (scripted one_model)
                (Some (import_request (Some [file "b.ply"; file "c.ply"])))
                (world_of (@on_message _ (scripted one_model)
                             (Some (import_request (Some [file "a.ply"])))
                             (page second_fails))))
  /\ trace_of (@on_message _ (scripted one_model)
                 (Some (import_request (Some ([file "a.ply"] ++ [file "b.ply"; file "c.ply"]))))
                 (page second_fails))
     = trace_of (@on_message _ (scripted one_model)
                   (Some (import_request (Some [file "a.ply"])))
                   (page second_fails))
       ++ trace_of (@on_message _ (scripted one_model)
                      (Some (import_request (Some [file "b.ply"; file "c.ply"])))
                      (world_of (@on_message _ (scripted one_model)
                                   (Some (import_request (Some [file "a.ply"])))
                                   (page second_fails)))).
Proof.
  apply (@import_batches_compose _ (scripted one_model)
           (import_request (Some [file "a.ply"]))
           (import_request (Some [file "b.ply"; file "c.ply"]))
           (import_request (Some ([file "a.ply"] ++ [file "b.ply"; file "c.ply"])))
           [file "a.ply"] [file "b.ply"; file "c.ply"] (page second_fails));
    reflexivity.
Defined.

End MoreRuns.
